(** * MQTT client engine of the vendoring machine: wire codec, packet
      builders, inbound handlers and dispatch, embedded from mqtt.c.

    C integers are [Z] with the wrap-around of their type written out
    ([u8], [u16], [u32]); byte buffers are [list Z] read and updated by
    index; the globals and the packet builder's locals are threaded through
    an explicit state-and-fault monad. *)

From Stdlib Require Import ZArith Lia List.
From stdpp Require Import base list.
From Equations Require Import Equations.
Import ListNotations.
Local Open Scope Z_scope.

(** ** Machine integers *)

Definition u8 (x : Z) : Z := x mod 256.
Definition u16 (x : Z) : Z := x mod 65536.
Definition u32 (x : Z) : Z := x mod 4294967296.

(** ** Constants of mqtt.c *)

Definition MQTT_MAX_MSG_NUM : Z := 6.
Definition MQTT_MAX_MSG_SIZE : Z := 128.

Definition TYPE_CONNECT : Z := 0x10.
Definition TYPE_CONNACK : Z := 0x20.
Definition TYPE_PUBLISH : Z := 0x30.
Definition TYPE_PUBACK : Z := 0x40.
Definition TYPE_PUBREC : Z := 0x50.
Definition TYPE_PUBREL : Z := 0x62.
Definition TYPE_PUBCOMP : Z := 0x70.
Definition TYPE_SUBSCRIBE : Z := 0x82.
Definition TYPE_SUBACK : Z := 0x90.
Definition TYPE_UNSUBSCRIBE : Z := 0xa2.
Definition TYPE_UNSUBACK : Z := 0xb0.
Definition TYPE_PINGREQ : Z := 0xc0.
Definition TYPE_PINGRESP : Z := 0xd0.
Definition TYPE_DISCONNECT : Z := 0xe0.

Definition protocol_name : list Z := [0x00; 0x04; 77; 81; 84; 84].
Definition PROTOCOL_LEVEL : Z := 0x04.

(** ** Faults

    What stops a run: a failed [assert_param], a store outside the buffer
    it targets, [strlen] of a null pointer, and the iteration bound of the
    model of a loop (shown unreachable below). *)

Inductive fault : Type :=
| AssertFailed
| BufferOverrun
| NullPointer
| LoopBound.

Inductive res (A : Type) : Type :=
| Ok (a : A)
| Err (f : fault).
Arguments Ok {A} a.
Arguments Err {A} f.

(** ** Buffers *)

(** [data[i]] for reading: a byte outside the list reads as 0. *)
Definition byte_at (data : list Z) (i : nat) : Z := default 0 (data !! i).

(** [buf[i] = v]: a store outside the buffer is a fault. *)
Definition store (buf : list Z) (i : nat) (v : Z) : res (list Z) :=
  if decide (i < length buf)%nat then Ok (<[i := v]> buf) else Err BufferOverrun.

(** A C string is the list of its bytes before the terminating NUL. *)
Definition strlen (s : list Z) : Z := Z.of_nat (length s).

(** [strcpy((char * )(buf + i), s)]: the bytes of [s], then the NUL. *)
Fixpoint strcpy (buf : list Z) (i : nat) (s : list Z) : res (list Z) :=
  match s with
  | [] => store buf i 0
  | c :: s' =>
      match store buf i c with
      | Ok buf' => strcpy buf' (S i) s'
      | Err f => Err f
      end
  end.

(** ** Remaining-length codec *)

(** The loop of [encode_length].  [encode_byte |= 0x80] changes a local that
    is not stored in this branch, so the branch only loops. *)
Equations? encode_loop (data : Z) (size : Z) (buf : list Z) (encode : nat)
  : res (Z * list Z) by wf (Z.to_nat data) lt :=
  encode_loop data size buf encode with Z_lt_dec 0 (data / 128) := {
    | left _ =>
        let encode_byte := Z.lor (data mod 128) 0x80 in
        encode_loop (data / 128) size buf encode
    | right _ =>
        let encode_byte := data mod 128 in
        match store buf (encode + Z.to_nat size) encode_byte with
        | Ok buf' => Ok (u8 (size + 1), buf')
        | Err f => Err f
        end }.
Proof.
  assert (0 < data) by (destruct (Z_lt_dec 0 data); [assumption |];
    exfalso; assert (data / 128 <= 0) by (apply Z.div_le_upper_bound; lia); lia).
  assert (data / 128 < data) by (apply Z.div_lt; lia).
  lia.
Qed.

(** [encode_length(data, encode)]: the byte count returned and the buffer
    [encode] points into (at offset [encode] of [buf]). *)
Definition encode_length (data : Z) (buf : list Z) (encode : nat)
  : res (Z * list Z) :=
  encode_loop (u32 data) 0 buf encode.

(** The loop of [decode_length]; [decode] is the offset of the pointer in
    [data].  [fuel] bounds the iterations of the model. *)
Fixpoint decode_loop (fuel : nat) (data : list Z) (decode : nat)
    (step value multipiler : Z) : res (Z * Z) :=
  match fuel with
  | O => Err LoopBound
  | S fuel' =>
      let decode := S decode in
      let step := u8 (step + 1) in
      let value := u32 (value + Z.land (byte_at data decode) 0x7f * multipiler) in
      let multipiler := u32 (multipiler * 128) in
      if 128 * 128 * 128 <? multipiler then Ok (0xffffffff, step)
      else if negb (Z.land (byte_at data decode) 0x80 =? 0)
           then decode_loop fuel' data decode step value multipiler
           else Ok (value, step)
  end.

(** [decode_length(decode, &step)]: the value returned and [*step].  A call
    with [step == NULL] uses the first component only. *)
Definition decode_length (data : list Z) (decode : nat) : res (Z * Z) :=
  decode_loop 4 data decode 0 0 1.

(** ** Machine state

    [mqtt_msg] is the frame record moved through the send queue. *)

Record mqtt_msg : Type := { msg_size : Z; msg_data : list Z }.

(** The bytes the sender task writes to the transport:
    [msg.data], [msg.size] of them. *)
Definition frame (m : mqtt_msg) : list Z :=
  take (Z.to_nat (msg_size m)) (msg_data m).

(** What a run does to the outside, in order: a call through a slot of
    [g_driver] with its arguments (the function installed there is
    application code), and the call [xQueueSend(xSendQueue, msg, ...)] of
    [mqtt_send_data] (the queue itself belongs to the kernel).  The
    [content] of [call_publish] is the [len] bytes its pointer addresses. *)
Inductive event : Type :=
| call_connack (status : Z)
| call_publish (topic : list Z) (content : list Z) (len : Z)
| call_puback (id : Z)
| call_pubrec (id : Z)
| call_pubrel (id : Z)
| call_pubcomp (id : Z)
| call_suback (status : Z) (id : Z)
| call_unsuback (id : Z)
| call_pingresp
| xQueueSend (msg : mqtt_msg).

(** The global [g_uuid], the events so far, and the locals of the packet
    builder that is running: its [mqtt_msg msg] and the offset of [pdata] in
    [msg.data].  A builder declares [msg] without initialising it: it starts
    from whatever [msg] holds. *)
Record machine : Type := {
  g_uuid : Z;
  trace : list event;
  msg : mqtt_msg;
  pdata : nat
}.

Definition M (A : Type) : Type := machine -> res (A * machine).

Definition ret {A : Type} (a : A) : M A := fun s => Ok (a, s).

Definition bind {A B : Type} (m : M A) (k : A -> M B) : M B :=
  fun s => match m s with
           | Ok (a, s') => k a s'
           | Err f => Err f
           end.

Definition fail {A : Type} (f : fault) : M A := fun _ => Err f.

Definition lift {A : Type} (r : res A) : M A :=
  fun s => match r with Ok a => Ok (a, s) | Err f => Err f end.

(** [x ← m; k] and [m;; k] are [bind]. *)
#[global] Instance M_ret : MRet M := @ret.
#[global] Instance M_bind : MBind M := fun A B k m => bind m k.

(** Modelled from the spec: [assert_param] of assert.h, which is not among
    the sources; a violated parameter check is fatal in the embedded build, so
    the run stops there. *)
Definition assert_param (b : bool) : M unit :=
  if b then ret tt else fail AssertFailed.

Definition emit (e : event) : M unit :=
  fun s => Ok (tt, {| g_uuid := g_uuid s; trace := trace s ++ [e];
                      msg := msg s; pdata := pdata s |}).

Definition set_data (buf : list Z) (s : machine) : machine :=
  {| g_uuid := g_uuid s; trace := trace s;
     msg := {| msg_size := msg_size (msg s); msg_data := buf |};
     pdata := pdata s |}.

(** [uint8_t *pdata = msg.data] *)
Definition pdata_init : M unit :=
  fun s => Ok (tt, {| g_uuid := g_uuid s; trace := trace s;
                      msg := msg s; pdata := O |}).

(** [*pdata = v] *)
Definition poke (v : Z) : M unit :=
  fun s => match store (msg_data (msg s)) (pdata s) v with
           | Ok buf => Ok (tt, set_data buf s)
           | Err f => Err f
           end.

(** [*pdata] *)
Definition peek : M Z :=
  fun s => Ok (byte_at (msg_data (msg s)) (pdata s), s).

(** [pdata += n] *)
Definition advance (n : Z) : M unit :=
  fun s => Ok (tt, {| g_uuid := g_uuid s; trace := trace s;
                      msg := msg s; pdata := (pdata s + Z.to_nat n)%nat |}).

(** [*pdata ++ = v] *)
Definition put (v : Z) : M unit := poke v;; advance 1.

(** [strcpy((char * )pdata, str)] *)
Definition strcpy_pdata (str : list Z) : M unit :=
  fun s => match strcpy (msg_data (msg s)) (pdata s) str with
           | Ok buf => Ok (tt, set_data buf s)
           | Err f => Err f
           end.

(** [encode_length(payload_len, pdata)] *)
Definition encode_length_pdata (payload_len : Z) : M Z :=
  fun s => match encode_length payload_len (msg_data (msg s)) (pdata s) with
           | Ok (n, buf) => Ok (n, set_data buf s)
           | Err f => Err f
           end.

(** [msg.size = v] *)
Definition set_size (v : Z) : M unit :=
  fun s => Ok (tt, {| g_uuid := g_uuid s; trace := trace s;
                      msg := {| msg_size := u8 v; msg_data := msg_data (msg s) |};
                      pdata := pdata s |}).

Definition get_uuid : M Z := fun s => Ok (g_uuid s, s).

(** [g_uuid ++] *)
Definition uuid_incr : M unit :=
  fun s => Ok (tt, {| g_uuid := u16 (g_uuid s + 1); trace := trace s;
                      msg := msg s; pdata := pdata s |}).

Definition mqtt_send_data : M unit :=
  fun s => emit (xQueueSend (msg s)) s.

(** ** Acknowledgment builders *)

Definition mqtt_puback (id : Z) : M unit :=
  pdata_init;;
  put TYPE_PUBACK;;
  put 0x02;;
  put (u8 (Z.shiftr id 8));;
  put (u8 (Z.land id 0xff));;
  set_size 4;;
  mqtt_send_data.

Definition mqtt_pubrec (id : Z) : M unit :=
  pdata_init;;
  put TYPE_PUBREC;;
  put 0x02;;
  put (u8 (Z.shiftr id 8));;
  put (u8 (Z.land id 0xff));;
  set_size 4;;
  mqtt_send_data.

Definition mqtt_pubcomp (id : Z) : M unit :=
  pdata_init;;
  put TYPE_PUBCOMP;;
  put 0x02;;
  put (u8 (Z.shiftr id 8));;
  put (u8 (Z.land id 0xff));;
  set_size 4;;
  mqtt_send_data.

(** ** Inbound handlers

    [data] is the receive buffer and [len] the [uint8_t] length handed to
    the handler. *)

(** The string a [char] array holds: its bytes before the first NUL. *)
Fixpoint c_str (arr : list Z) : list Z :=
  match arr with
  | [] => []
  | c :: arr' => if c =? 0 then [] else c :: c_str arr'
  end.

(** The [n] bytes [strncpy(dst, (const char * )(data + p), n)] stores in
    [dst]: the source up to its NUL, then NULs. *)
Fixpoint strncpy (data : list Z) (p : nat) (n : nat) : list Z :=
  match n with
  | O => []
  | S n' =>
      let c := byte_at data p in
      if c =? 0 then repeat 0 (S n') else c :: strncpy data (S p) n'
  end.

Definition process_connack (data : list Z) (len : Z) : M unit :=
  if 4 <=? len then
    r ← lift (decode_length data 0);
    assert_param (fst r =? 2);;
    emit (call_connack (byte_at data 3))
  else ret tt.

Definition process_publish (data : list Z) (len : Z) : M unit :=
  if 4 <=? len then
    r ← lift (decode_length data 0);
    let data_len := fst r in
    let step := snd r in
    let dup := Z.land (Z.shiftr (byte_at data 0) 3) 0x01 in
    let qos := Z.land (Z.shiftr (byte_at data 0) 1) 0x03 in
    let pdata := (Z.to_nat step + 1)%nat in
    let topic_len := byte_at data pdata in
    let pdata := S pdata in
    let topic_len := u16 (Z.shiftl topic_len 8) in
    let topic_len := u16 (topic_len + byte_at data pdata) in
    let pdata := S pdata in
    (* the initialised part of [char topic[42]] *)
    let topic :=
      if 42 <=? topic_len
      then strncpy data pdata 41 ++ [0]
      else strncpy data pdata (Z.to_nat topic_len) ++ [0] in
    let pdata := (pdata + Z.to_nat topic_len)%nat in
    let '(id, pdata, len) :=
      if (1 =? qos) || (2 =? qos)
      then
        let id := byte_at data pdata in
        let id := u16 (Z.shiftl id 8) in
        let pdata := S pdata in
        let id := u16 (id + byte_at data pdata) in
        let pdata := S pdata in
        (id, pdata, u8 (len - 2))
      else (0, pdata, len) in
    let n := u32 (len - step - topic_len - 3) in
    emit (call_publish (c_str topic) (take (Z.to_nat n) (drop pdata data)) n);;
    match qos with
    | 1 => mqtt_puback id
    | 2 => mqtt_pubrec id
    | _ => ret tt
    end
  else ret tt.

Definition process_puback (data : list Z) (len : Z) : M unit :=
  if 4 <=? len then
    r ← lift (decode_length data 0);
    assert_param (fst r =? 2);;
    let uuid := byte_at data 2 in
    let uuid := u16 (Z.shiftl uuid 8) in
    let uuid := u16 (uuid + byte_at data 3) in
    emit (call_puback uuid)
  else ret tt.

Definition process_pubrec (data : list Z) (len : Z) : M unit :=
  if 4 <=? len then
    r ← lift (decode_length data 0);
    assert_param (fst r =? 2);;
    let uuid := byte_at data 2 in
    let uuid := u16 (Z.shiftl uuid 8) in
    let uuid := u16 (uuid + byte_at data 3) in
    emit (call_pubrec uuid)
  else ret tt.

Definition process_pubrel (data : list Z) (len : Z) : M unit :=
  if 4 <=? len then
    r ← lift (decode_length data 0);
    assert_param (fst r =? 2);;
    let uuid := byte_at data 2 in
    let uuid := u16 (Z.shiftl uuid 8) in
    let uuid := u16 (uuid + byte_at data 3) in
    mqtt_pubcomp uuid;;
    emit (call_pubrel uuid)
  else ret tt.

Definition process_pubcomp (data : list Z) (len : Z) : M unit :=
  if 4 <=? len then
    r ← lift (decode_length data 0);
    assert_param (fst r =? 2);;
    let uuid := byte_at data 2 in
    let uuid := u16 (Z.shiftl uuid 8) in
    let uuid := u16 (uuid + byte_at data 3) in
    emit (call_pubcomp uuid)
  else ret tt.

Definition process_suback (data : list Z) (len : Z) : M unit :=
  if 4 <=? len then
    r ← lift (decode_length data 0);
    assert_param (fst r =? 3);;
    let uuid := byte_at data 2 in
    let uuid := u16 (Z.shiftl uuid 8) in
    let uuid := u16 (uuid + byte_at data 3) in
    let status := byte_at data 4 in
    emit (call_suback status uuid)
  else ret tt.

Definition process_unsuback (data : list Z) (len : Z) : M unit :=
  if 4 <=? len then
    r ← lift (decode_length data 0);
    assert_param (fst r =? 3);;
    let uuid := byte_at data 2 in
    let uuid := u16 (Z.shiftl uuid 8) in
    let uuid := u16 (uuid + byte_at data 3) in
    emit (call_unsuback uuid)
  else ret tt.

Definition process_pingresp (data : list Z) (len : Z) : M unit :=
  emit call_pingresp.

(** ** Dispatch *)

Record func_node : Type := {
  type : Z;
  process : list Z -> Z -> M unit
}.

Definition funcs : list func_node := [
  {| type := TYPE_CONNACK; process := process_connack |};
  {| type := TYPE_PUBLISH; process := process_publish |};
  {| type := TYPE_PUBACK; process := process_puback |};
  {| type := TYPE_PUBREC; process := process_pubrec |};
  {| type := TYPE_PUBREL; process := process_pubrel |};
  {| type := TYPE_PUBCOMP; process := process_pubcomp |};
  {| type := TYPE_SUBACK; process := process_suback |};
  {| type := TYPE_UNSUBACK; process := process_unsuback |};
  {| type := TYPE_PINGRESP; process := process_pingresp |}
].

(** What [mode_net()] returns; the code only asks whether it is
    [MODE_NET_WIFI], the other transport being the M26 modem. *)
Inductive net_mode : Type := MODE_NET_WIFI | MODE_NET_M26.

(** The [for] loop of the WiFi branch of [vMqttRecv] over the entries from
    [funcs[i]] on; [len] is the [uint16_t] length received. *)
Fixpoint scan_wifi (nodes : list func_node) (data : list Z) (len : Z) : M unit :=
  match nodes with
  | [] => ret tt
  | node :: nodes' =>
      if type node =? Z.land (byte_at data 0) 0xf0
      then process node data (u8 len)
      else if type node =? byte_at data 0
           then process node data (u8 len)
           else scan_wifi nodes' data len
  end.

(** The [for] loop of the other branch. *)
Fixpoint scan_m26 (nodes : list func_node) (data : list Z) (len : Z) : M unit :=
  match nodes with
  | [] => ret tt
  | node :: nodes' =>
      if type node =? byte_at data 0
      then process node data (u8 len)
      else scan_m26 nodes' data len
  end.

(** One round of the loop of [vMqttRecv] in which the transport delivered
    [len] bytes into [data]. *)
Definition vMqttRecv (mode : net_mode) (data : list Z) (len : Z) : M unit :=
  match mode with
  | MODE_NET_WIFI => scan_wifi funcs data len
  | MODE_NET_M26 => scan_m26 funcs data len
  end.

(** ** Packet builders *)

Definition mqtt_publish (topic content : list Z) (dup qos retain : Z) : M unit :=
  pdata_init;;
  (* calculate payload length *)
  let payload_len := u32 (strlen topic + 2 + strlen content) in
  let payload_len := if negb (0 =? qos) then u32 (payload_len + 2) else payload_len in
  (* packet data *)
  poke TYPE_PUBLISH;;
  b ← peek; poke (u8 (Z.lor b (Z.shiftl (Z.land dup 0x01) 3)));;
  b ← peek; poke (u8 (Z.lor b (Z.shiftl (Z.land qos 0x03) 1)));;
  b ← peek; poke (u8 (Z.lor b (Z.land retain 0x01)));;
  advance 1;;
  encode_len ← encode_length_pdata payload_len;
  assert_param (u32 (payload_len + encode_len + 1) <=? MQTT_MAX_MSG_SIZE);;
  advance encode_len;;
  (* add topic *)
  let str_len := u16 (strlen topic) in
  put (u8 (Z.shiftr str_len 8));;
  put (u8 (Z.land str_len 0xff));;
  strcpy_pdata topic;;
  advance str_len;;
  (if negb (0 =? qos) then
     uuid ← get_uuid; put (u8 (Z.shiftr uuid 8));;
     uuid ← get_uuid; put (u8 (Z.land uuid 0xff));;
     uuid_incr
   else ret tt);;
  strcpy_pdata content;;
  set_size (payload_len + encode_len + 1);;
  (* send message to queue *)
  mqtt_send_data.

Definition mqtt_subscribe (topic : list Z) (qos : Z) : M Z :=
  pdata_init;;
  (* calculate payload length *)
  let payload_len := u32 (strlen topic + 5) in
  (* packet data *)
  put TYPE_SUBSCRIBE;;
  encode_len ← encode_length_pdata payload_len;
  assert_param (u32 (payload_len + encode_len + 1) <=? MQTT_MAX_MSG_SIZE);;
  advance encode_len;;
  (* add uuid *)
  uuid ← get_uuid; put (u8 (Z.shiftr uuid 8));;
  uuid ← get_uuid; put (u8 (Z.land uuid 0xff));;
  uuid_incr;;
  (* add topic *)
  let str_len := u16 (strlen topic) in
  put (u8 (Z.shiftr str_len 8));;
  put (u8 (Z.land str_len 0xff));;
  strcpy_pdata topic;;
  advance str_len;;
  poke (Z.land qos 0x03);;
  set_size (payload_len + encode_len + 1);;
  (* send message to queue *)
  mqtt_send_data;;
  (* return g_uuid, as uint8_t *)
  uuid ← get_uuid; ret (u8 uuid).

Definition mqtt_unsubscribe (topic : list Z) : M unit :=
  pdata_init;;
  (* calculate payload length *)
  let payload_len := u32 (strlen topic + 4) in
  (* packet data *)
  put TYPE_SUBSCRIBE;;
  encode_len ← encode_length_pdata payload_len;
  assert_param (u32 (payload_len + encode_len + 1) <=? MQTT_MAX_MSG_SIZE);;
  advance encode_len;;
  (* add uuid *)
  uuid ← get_uuid; put (u8 (Z.shiftr uuid 8));;
  uuid ← get_uuid; put (u8 (Z.land uuid 0xff));;
  uuid_incr;;
  (* add topic *)
  let str_len := u16 (strlen topic) in
  put (u8 (Z.shiftr str_len 8));;
  put (u8 (Z.land str_len 0xff));;
  strcpy_pdata topic;;
  advance str_len;;
  set_size (payload_len + encode_len + 1);;
  (* send message to queue *)
  mqtt_send_data.

(** ** CONNECT *)

(** The union [connect_flag] of mqtt.h, which is not among the sources: the
    byte view [flag] and the bit-fields of the view [_flag], each taken as
    given (the position of a bit-field in the byte is fixed by that header). *)
Record connect_flag : Type := {
  flag : Z;
  clear_session : Z;
  will_flag : Z;
  will_qos : Z;
  will_retain : Z;
  password_flag : Z;
  username_flag : Z
}.

(** A [const char *] member is [None] when it is [NULL]. *)
Record connect_param : Type := {
  cp_flag : connect_flag;
  alive_time : Z;
  client_id : option (list Z);
  will_topic : option (list Z);
  will_msg : option (list Z);
  username : option (list Z);
  password : option (list Z)
}.

(** Dereferencing a string pointer: a fault when it is [NULL]. *)
Definition deref (p : option (list Z)) : M (list Z) :=
  match p with
  | Some str => ret str
  | None => fail NullPointer
  end.

Definition is_null (p : option (list Z)) : bool :=
  match p with Some _ => false | None => true end.

Definition check_connect_param (param : connect_param) : M unit :=
  (if is_null (client_id param)
   then assert_param (0x01 =? clear_session (cp_flag param))
   else ret tt);;
  (if 0x00 =? will_flag (cp_flag param)
   then
     assert_param (0 =? will_qos (cp_flag param));;
     assert_param (0 =? will_retain (cp_flag param))
   else
     assert_param (will_qos (cp_flag param) <? 0x03);;
     assert_param (negb (is_null (will_topic param)));;
     assert_param (negb (is_null (will_msg param))));;
  (if 0x01 =? username_flag (cp_flag param)
   then assert_param (negb (is_null (username param)))
   else ret tt);;
  (if 0x01 =? password_flag (cp_flag param)
   then assert_param (negb (is_null (password param)))
   else ret tt).

Definition calculate_connect_payload_len (param : connect_param) : M Z :=
  let payload_len := 10 in
  payload_len ←
    (if negb (is_null (client_id param))
     then str ← deref (client_id param); ret (u32 (payload_len + (strlen str + 2)))
     else ret payload_len);
  payload_len ←
    (if 0x01 =? will_flag (cp_flag param)
     then
       (* add will topic and will message *)
       str ← deref (will_topic param);
       let payload_len := u32 (payload_len + (strlen str + 2)) in
       str ← deref (will_msg param);
       ret (u32 (payload_len + (strlen str + 2)))
     else ret payload_len);
  payload_len ←
    (if 0x01 =? username_flag (cp_flag param)
     then str ← deref (username param); ret (u32 (payload_len + (strlen str + 2)))
     else ret payload_len);
  payload_len ←
    (if 0x01 =? password_flag (cp_flag param)
     then str ← deref (password param); ret (u32 (payload_len + (strlen str + 2)))
     else ret payload_len);
  ret payload_len.

(** [str_len = strlen(p); *pdata ++ = str_len >> 8; *pdata ++ = str_len & 0xff;
    strcpy((char * )pdata, p); pdata += str_len], the block [mqtt_connect]
    repeats for each string it adds. *)
Definition add_string (p : option (list Z)) : M unit :=
  str ← deref p;
  let str_len := u16 (strlen str) in
  put (u8 (Z.shiftr str_len 8));;
  put (u8 (Z.land str_len 0xff));;
  strcpy_pdata str;;
  advance str_len.

Fixpoint put_all (bytes : list Z) : M unit :=
  match bytes with
  | [] => ret tt
  | b :: bytes' => put b;; put_all bytes'
  end.

Definition mqtt_connect (param : connect_param) : M unit :=
  check_connect_param param;;
  pdata_init;;
  (* calculate payload length *)
  payload_len ← calculate_connect_payload_len param;
  (* packet data *)
  put TYPE_CONNECT;;
  encode_len ← encode_length_pdata payload_len;
  assert_param (u32 (payload_len + encode_len + 1) <=? MQTT_MAX_MSG_SIZE);;
  advance encode_len;;
  put_all protocol_name;;
  put PROTOCOL_LEVEL;;
  put (flag (cp_flag param));;
  put (u8 (Z.shiftr (alive_time param) 8));;
  put (u8 (Z.land (alive_time param) 0xff));;
  (if negb (is_null (client_id param))
   then add_string (client_id param)
   else put 0x00;; put 0x00);;
  (if 0x01 =? will_flag (cp_flag param)
   then
     (* add will topic and will message *)
     add_string (will_topic param);;
     add_string (will_msg param)
   else ret tt);;
  (if 0x01 =? username_flag (cp_flag param)
   then add_string (username param)
   else ret tt);;
  (if 0x01 =? password_flag (cp_flag param)
   then add_string (password param)
   else ret tt);;
  set_size (payload_len + encode_len + 1);;
  (* send message to queue *)
  mqtt_send_data.

(** ** Driver registry *)

(** What a slot of an [mqtt_driver] points to: the default of mqtt.c for
    that slot ([mqtt_connack_cb], [mqtt_publish_cb], ...), which does nothing,
    or a function of the application.  A slot that is [NULL] is [None]. *)
Inductive callback : Type :=
| default_cb
| user_cb (f : nat).

Record mqtt_driver : Type := {
  connack : option callback;
  publish : option callback;
  puback : option callback;
  pubrec : option callback;
  pubrel : option callback;
  pubcomp : option callback;
  suback : option callback;
  unsuback : option callback;
  pingresp : option callback
}.

(** [init_mqtt_driver]: the value it gives [g_driver]. *)
Definition init_mqtt_driver : mqtt_driver :=
  {| connack := Some default_cb; publish := Some default_cb;
     puback := Some default_cb; pubrec := Some default_cb;
     pubrel := Some default_cb; pubcomp := Some default_cb;
     suback := Some default_cb; unsuback := Some default_cb;
     pingresp := Some default_cb |}.

(** [if (NULL == g_driver.slot) g_driver.slot = default] *)
Definition refresh_slot (slot : option callback) : option callback :=
  match slot with
  | None => Some default_cb
  | Some f => Some f
  end.

(** [refresh_driver], on the value of [g_driver]: it has no statement for
    the [publish] slot. *)
Definition refresh_driver (g_driver : mqtt_driver) : mqtt_driver :=
  {| connack := refresh_slot (connack g_driver);
     publish := publish g_driver;
     puback := refresh_slot (puback g_driver);
     pubrec := refresh_slot (pubrec g_driver);
     pubrel := refresh_slot (pubrel g_driver);
     pubcomp := refresh_slot (pubcomp g_driver);
     suback := refresh_slot (suback g_driver);
     unsuback := refresh_slot (unsuback g_driver);
     pingresp := refresh_slot (pingresp g_driver) |}.

(** [mqtt_attach(driver)]: the new value of [g_driver]. *)
Definition mqtt_attach (driver : mqtt_driver) (g_driver : mqtt_driver) : mqtt_driver :=
  refresh_driver
    {| connack := connack driver; publish := publish driver;
       puback := puback driver; pubrec := pubrec driver;
       pubrel := pubrel driver; pubcomp := pubcomp driver;
       suback := suback driver; unsuback := unsuback driver;
       pingresp := pingresp driver |}.

(** [mqtt_detach()]: the new value of [g_driver]. *)
Definition mqtt_detach (g_driver : mqtt_driver) : mqtt_driver := init_mqtt_driver.

(** ** Operations that draw a packet identifier *)

Inductive op : Type :=
| OpPublish (topic content : list Z) (dup qos retain : Z)
| OpSubscribe (topic : list Z) (qos : Z)
| OpUnsubscribe (topic : list Z).

Definition run_op (o : op) : M unit :=
  match o with
  | OpPublish topic content dup qos retain => mqtt_publish topic content dup qos retain
  | OpSubscribe topic qos => mqtt_subscribe topic qos;; ret tt
  | OpUnsubscribe topic => mqtt_unsubscribe topic
  end.

Fixpoint run_ops (ops : list op) : M unit :=
  match ops with
  | [] => ret tt
  | o :: ops' => run_op o;; run_ops ops'
  end.

(** The machine when the tasks start: [g_uuid] has its initialiser 0 and
    nothing has happened; [m] is what the first builder finds in its [msg]. *)
Definition boot (m : mqtt_msg) : machine :=
  {| g_uuid := 0; trace := []; msg := m; pdata := O |}.

(** ** Vocabulary of the statements *)

(** An event as the peer and the application see it: of a queued [msg], the
    bytes that go on the wire. *)
Definition on_wire (e : event) : event :=
  match e with
  | xQueueSend m => xQueueSend {| msg_size := msg_size m; msg_data := frame m |}
  | _ => e
  end.

Definition wire (t : list event) : list event := map on_wire t.

(** A frame of [n] bytes as it is queued. *)
Definition queued (bytes : list Z) : event :=
  xQueueSend {| msg_size := Z.of_nat (length bytes); msg_data := bytes |}.

(** [msg.data] has its declared size. *)
Definition buf_ok (s : machine) : Prop :=
  length (msg_data (msg s)) = Z.to_nat MQTT_MAX_MSG_SIZE.

(** The two bytes of a big-endian 16-bit field. *)
Definition be16 (v : Z) : list Z := [u8 (Z.shiftr v 8); u8 (Z.land v 0xff)].

(** A string field: 2-byte length, then the bytes. *)
Definition lp_string (str : list Z) : list Z := be16 (strlen str) ++ str.

(** First byte of PUBLISH. *)
Definition publish_header (dup qos retain : Z) : Z :=
  TYPE_PUBLISH + 8 * (dup mod 2) + 2 * (qos mod 4) + retain mod 2.

(** Layout of a PUBLISH frame that carries an identifier, remaining length in
    one byte. *)
Definition publish_bytes (dup qos retain : Z) (topic : list Z) (id : Z)
    (payload : list Z) : list Z :=
  [publish_header dup qos retain; strlen topic + 4 + strlen payload]
    ++ lp_string topic ++ be16 id ++ payload.

(** Layout of the acknowledgments PUBACK, PUBREC, PUBREL, PUBCOMP. *)
Definition ack_bytes (ty : Z) (id : Z) : list Z := [ty; 0x02] ++ be16 id.

(** The bytes a builder that draws identifier [id] puts on the wire. *)
Definition op_bytes (o : op) (id : Z) : list Z :=
  match o with
  | OpPublish topic content dup qos retain =>
      publish_bytes dup qos retain topic id content
  | OpSubscribe topic qos =>
      [TYPE_SUBSCRIBE; strlen topic + 5] ++ be16 id ++ lp_string topic
        ++ [Z.land qos 0x03]
  | OpUnsubscribe topic =>
      [TYPE_SUBSCRIBE; strlen topic + 4] ++ be16 id ++ lp_string topic
  end.

(** A string the builders can copy: no NUL inside, every byte a [char]. *)
Definition c_string (str : list Z) : Prop := Forall (fun c => 0 < c < 256) str.

(** The operation is a qos>0 one and its frame, with the NUL [strcpy] adds
    after it, fits [msg.data]. *)
Definition op_fits (o : op) : Prop :=
  match o with
  | OpPublish topic content dup qos retain =>
      0 < qos < 256 /\ (length topic + length content + 6 < 128)%nat
  | OpSubscribe topic qos => (length topic + 7 <= 128)%nat
  | OpUnsubscribe topic => (length topic + 6 < 128)%nat
  end.

(** The frames queued by a trace, in order. *)
Fixpoint sent (t : list event) : list (list Z) :=
  match t with
  | [] => []
  | xQueueSend m :: t' => frame m :: sent t'
  | _ :: t' => sent t'
  end.

(** Abstract view of the machine: [g_uuid], the wire view of the trace,
    [msg.size], the bytes of [msg.data] before [pdata] and the known bytes
    from [pdata] on. *)
Definition st_at (s : machine) (g : Z) (t : list event) (sz : Z)
    (pre la : list Z) : Prop :=
  g_uuid s = g /\ wire (trace s) = t /\ msg_size (msg s) = sz /\
  exists suf, msg_data (msg s) = pre ++ la ++ suf /\ pdata s = length pre /\
    (length pre + length la + length suf = 128)%nat.

(** Weakest precondition of a run that ends without fault. *)
Definition wp {A : Type} (m : M A) (Q : A -> machine -> Prop) (s : machine) : Prop :=
  exists a s', m s = Ok (a, s') /\ Q a s'.

(** What the handlers keep of the machine: [g_uuid], the wire view of the
    trace, and the size of [msg.data]. *)
Definition st_any (s : machine) (g : Z) (t : list event) : Prop :=
  g_uuid s = g /\ wire (trace s) = t /\ buf_ok s.

(** The identifier field of an outbound frame whose remaining length takes
    one byte: after the topic in PUBLISH, first in the others. *)
Definition frame_packet_id (f : list Z) : Z :=
  let at_ (p : nat) := u16 (u16 (Z.shiftl (byte_at f p) 8) + byte_at f (S p)) in
  if Z.land (byte_at f 0) 0xf0 =? TYPE_PUBLISH
  then at_ (4 + Z.to_nat (at_ 2%nat))%nat
  else at_ 2%nat.

(** An entry of the dispatch table matches first byte [b] on the WiFi
    transport. *)
Definition matches_wifi (b : Z) (node : func_node) : bool :=
  (type node =? Z.land b 0xf0) || (type node =? b).

(** A machine for the examples: [g_uuid] at [g], nothing queued, a zeroed
    [msg]. *)
Definition machine_at (g : Z) : machine :=
  {| g_uuid := g; trace := [];
     msg := {| msg_size := 0; msg_data := repeat 0 128 |}; pdata := O |}.

(** Connect parameters with no client identifier, no will, no user name and
    no password: clean session, keep-alive 60 s. *)
Definition anonymous_connect : connect_param :=
  {| cp_flag := {| flag := 0x02; clear_session := 1; will_flag := 0; will_qos := 0;
                   will_retain := 0; password_flag := 0; username_flag := 0 |};
     alive_time := 60; client_id := None; will_topic := None; will_msg := None;
     username := None; password := None |}.

(** The encoding of a remaining length that [decode_length] reads: base-128
    digits, least significant first, [n] bytes with the continuation bit 0x80
    and then the last digit. *)
Fixpoint varint_digits (n : nat) (v : Z) : list Z :=
  match n with
  | O => [v]
  | S n' => (v mod 128 + 128) :: varint_digits n' (v / 128)
  end.

(** The shortest such encoding of [v] (below 128^4). *)
Definition varint (v : Z) : list Z :=
  if v <? 128 then varint_digits 0 v
  else if v <? 16384 then varint_digits 1 v
  else if v <? 2097152 then varint_digits 2 v
  else varint_digits 3 v.

(** The machine after one more event. *)
Definition with_event (s : machine) (e : event) : machine :=
  {| g_uuid := g_uuid s; trace := trace s ++ [e]; msg := msg s; pdata := pdata s |}.

(** Layout of a PUBLISH frame with qos=0: no identifier. *)
Definition publish0_bytes (dup retain : Z) (topic payload : list Z) : list Z :=
  [publish_header dup 0 retain; strlen topic + 2 + strlen payload]
    ++ lp_string topic ++ payload.

(** The string a pointer addresses, empty for [NULL]. *)
Definition opt_str (p : option (list Z)) : list Z := default [] p.

(** CONNECT after the remaining length: protocol name, level, flags,
    keep-alive. *)
Definition connect_head (param : connect_param) : list Z :=
  protocol_name
    ++ [PROTOCOL_LEVEL; flag (cp_flag param);
        u8 (Z.shiftr (alive_time param) 8); u8 (Z.land (alive_time param) 0xff)].

(** The string fields that follow the client identifier, each present when
    its flag is 1. *)
Definition connect_tail (param : connect_param) : list Z :=
  (if 0x01 =? will_flag (cp_flag param)
   then lp_string (opt_str (will_topic param)) ++ lp_string (opt_str (will_msg param))
   else [])
  ++ (if 0x01 =? username_flag (cp_flag param)
      then lp_string (opt_str (username param)) else [])
  ++ (if 0x01 =? password_flag (cp_flag param)
      then lp_string (opt_str (password param)) else []).

(** What [check_connect_param] asserts. *)
Definition connect_valid (param : connect_param) : Prop :=
  (client_id param = None -> clear_session (cp_flag param) = 1) /\
  ((will_flag (cp_flag param) = 0 /\ will_qos (cp_flag param) = 0 /\
    will_retain (cp_flag param) = 0) \/
   (will_flag (cp_flag param) <> 0 /\ will_qos (cp_flag param) < 3 /\
    will_topic param <> None /\ will_msg param <> None)) /\
  (username_flag (cp_flag param) = 1 -> username param <> None) /\
  (password_flag (cp_flag param) = 1 -> password param <> None).

(** [st_at] without the bytes known after [pdata]. *)
Definition st_pre (s : machine) (g : Z) (t : list event) (sz : Z)
    (pre : list Z) : Prop :=
  exists la, st_at s g t sz pre la.

(** * Properties *)

(** ** Machine integers and bits *)

Lemma u8_small (x : Z) : 0 <= x < 256 -> u8 x = x.
Proof. intros H. unfold u8. apply Z.mod_small. exact H. Qed.

Lemma u16_small (x : Z) : 0 <= x < 65536 -> u16 x = x.
Proof. intros H. unfold u16. apply Z.mod_small. exact H. Qed.

Lemma u32_small (x : Z) : 0 <= x < 4294967296 -> u32 x = x.
Proof. intros H. unfold u32. apply Z.mod_small. exact H. Qed.

Lemma land_0xff (x : Z) : Z.land x 0xff = x mod 256.
Proof. change 0xff with (Z.ones 8). rewrite Z.land_ones by lia. reflexivity. Qed.

Lemma land_0x7f (x : Z) : Z.land x 0x7f = x mod 128.
Proof. change 0x7f with (Z.ones 7). rewrite Z.land_ones by lia. reflexivity. Qed.

Lemma land_0x80_small (x : Z) : 0 <= x < 128 -> Z.land x 0x80 = 0.
Proof.
  intros H. apply Z.bits_inj'. intros n Hn.
  rewrite Z.land_spec, Z.bits_0.
  destruct (Z.eq_dec n 7) as [-> | Hne].
  - replace (Z.testbit x 7) with false; [reflexivity |].
    symmetry. apply Z.testbit_false; [lia |].
    rewrite Z.div_small by (change (2 ^ 7) with 128; lia). reflexivity.
  - change 0x80 with (2 ^ 7). rewrite Z.pow2_bits_false by lia.
    apply andb_false_r.
Qed.

Lemma be16_hi (v : Z) : 0 <= v < 65536 -> u8 (Z.shiftr v 8) = v / 256.
Proof.
  intros H. rewrite Z.shiftr_div_pow2 by lia. change (2 ^ 8) with 256.
  apply u8_small. split; [apply Z.div_pos; lia | apply Z.div_lt_upper_bound; lia].
Qed.

Lemma be16_lo (v : Z) : u8 (Z.land v 0xff) = v mod 256.
Proof. rewrite land_0xff. apply u8_small. apply Z.mod_pos_bound. lia. Qed.

(** Reading a big-endian field back, the way the handlers do. *)
Lemma be16_read (v : Z) :
  0 <= v < 65536 ->
  u16 (u16 (Z.shiftl (u8 (Z.shiftr v 8)) 8) + u8 (Z.land v 0xff)) = v.
Proof.
  intros H. rewrite be16_hi, be16_lo by exact H.
  rewrite Z.shiftl_mul_pow2 by lia. change (2 ^ 8) with 256.
  assert (0 <= v / 256 < 256)
    by (split; [apply Z.div_pos; lia | apply Z.div_lt_upper_bound; lia]).
  assert (0 <= v mod 256 < 256) by (apply Z.mod_pos_bound; lia).
  rewrite (u16_small (v / 256 * 256)) by lia.
  rewrite u16_small by lia.
  pose proof (Z.div_mod v 256). lia.
Qed.

(** ** Buffers *)

Lemma byte_at_app_r (pre rest : list Z) (i : nat) :
  byte_at (pre ++ rest) (length pre + i) = byte_at rest i.
Proof.
  unfold byte_at. rewrite lookup_app_r by lia.
  replace (length pre + i - length pre)%nat with i by lia. reflexivity.
Qed.

Lemma byte_at_middle (pre : list Z) (x : Z) (rest : list Z) :
  byte_at (pre ++ x :: rest) (length pre) = x.
Proof.
  rewrite <- (Nat.add_0_r (length pre)). rewrite byte_at_app_r. reflexivity.
Qed.

Lemma store_middle (pre : list Z) (x v : Z) (rest : list Z) :
  store (pre ++ x :: rest) (length pre) v = Ok (pre ++ v :: rest).
Proof.
  unfold store. rewrite decide_True by (rewrite length_app; simpl; lia).
  f_equal. rewrite <- (Nat.add_0_r (length pre)). rewrite insert_app_r. reflexivity.
Qed.

Lemma store_full (pre : list Z) (v : Z) :
  store pre (length pre) v = Err BufferOverrun.
Proof. unfold store. rewrite decide_False by lia. reflexivity. Qed.

Lemma strcpy_middle (str pre rest : list Z) :
  (length str < length rest)%nat ->
  strcpy (pre ++ rest) (length pre) str
  = Ok (pre ++ str ++ 0 :: drop (S (length str)) rest).
Proof.
  revert pre rest. induction str as [| c str IH]; intros pre rest Hlen.
  - destruct rest as [| x rest]; [simpl in Hlen; lia |].
    simpl. rewrite store_middle. rewrite drop_0. reflexivity.
  - destruct rest as [| x rest]; [simpl in Hlen; lia |].
    simpl in Hlen. cbn [strcpy]. rewrite store_middle.
    replace (pre ++ c :: rest) with ((pre ++ [c]) ++ rest)
      by (rewrite <- app_assoc; reflexivity).
    replace (S (length pre)) with (length (pre ++ [c]))
      by (rewrite length_app; simpl; lia).
    rewrite IH by lia. rewrite <- app_assoc. reflexivity.
Qed.

(** ** Remaining-length codec *)

(** Whatever the value, the encoder stores one byte, at [encode[size]], and
    counts one byte: the bytes that would carry the continuation bit are
    never stored. *)
Lemma encode_loop_one_byte (data size : Z) (buf : list Z) (encode : nat) :
  exists d, 0 <= d < 128 /\ (0 <= data < 128 -> d = data) /\
    encode_loop data size buf encode
    = match store buf (encode + Z.to_nat size) d with
      | Ok buf' => Ok (u8 (size + 1), buf')
      | Err f => Err f
      end.
Proof.
  funelim (encode_loop data size buf encode).
  - match goal with IH : exists _, _ |- _ => destruct IH as (d & Hd & _ & Hrun) end.
    exists d. split; [exact Hd |]. split.
    + intros Hdata. exfalso.
      pose proof (Z.div_small data 128 Hdata). lia.
    + exact Hrun.
  - exists (data mod 128). split; [apply Z.mod_pos_bound; lia |]. split.
    + intros Hdata. apply Z.mod_small. exact Hdata.
    + reflexivity.
Qed.

Lemma encode_length_small (v : Z) (pre : list Z) (x : Z) (rest : list Z) :
  0 <= v < 128 ->
  encode_length v (pre ++ x :: rest) (length pre) = Ok (1, pre ++ v :: rest).
Proof.
  intros Hv. unfold encode_length. rewrite u32_small by lia.
  destruct (encode_loop_one_byte v 0 (pre ++ x :: rest) (length pre))
    as (d & _ & Hd & ->).
  rewrite Hd by exact Hv. simpl. rewrite Nat.add_0_r.
  rewrite store_middle. reflexivity.
Qed.

(** The bound of [decode_loop] is never reached from [decode_length]: the
    multiplier test stops the loop by the fourth byte. *)
Lemma decode_length_total (data : list Z) (decode : nat) :
  exists value step, decode_length data decode = Ok (value, step).
Proof.
  unfold decode_length. cbn [decode_loop].
  repeat match goal with
  | |- context [Z.land ?b 0x7f] => rewrite (land_0x7f b)
  end.
  set (b1 := byte_at data (S decode)).
  set (b2 := byte_at data (S (S decode))).
  set (b3 := byte_at data (S (S (S decode)))).
  set (b4 := byte_at data (S (S (S (S decode))))).
  change (u32 (1 * 128)) with 128.
  change (u32 (128 * 128)) with 16384.
  change (u32 (16384 * 128)) with 2097152.
  change (u32 (2097152 * 128)) with 268435456.
  change (128 * 128 * 128 <? 128) with false.
  change (128 * 128 * 128 <? 16384) with false.
  change (128 * 128 * 128 <? 2097152) with false.
  change (128 * 128 * 128 <? 268435456) with true.
  cbv iota.
  destruct (negb (Z.land b1 128 =? 0)); [| eauto].
  destruct (negb (Z.land b2 128 =? 0)); [| eauto].
  destruct (negb (Z.land b3 128 =? 0)); eauto.
Qed.

(** A one-byte remaining length decodes to itself in one step. *)
Lemma decode_length_one_byte (hdr v : Z) (rest : list Z) :
  0 <= v < 128 -> decode_length (hdr :: v :: rest) 0 = Ok (v, 1).
Proof.
  intros Hv. unfold decode_length. cbn [decode_loop].
  change (byte_at (hdr :: v :: rest) 1) with v.
  rewrite land_0x7f, land_0x80_small by exact Hv.
  rewrite Z.mod_small by exact Hv.
  change (u32 (1 * 128)) with 128.
  change (128 * 128 * 128 <? 128) with false.
  change (negb (0 =? 0)) with false. cbv iota.
  rewrite Z.mul_1_r, Z.add_0_l, u32_small by lia. reflexivity.
Qed.

(** ** Rules for running the monad *)

Lemma st_at_any s g t sz pre la : st_at s g t sz pre la -> st_any s g t.
Proof.
  intros (Hg & Ht & _ & suf & Hdata & _ & Hlen).
  repeat split; try assumption.
  unfold buf_ok. rewrite Hdata, !length_app. change (Z.to_nat MQTT_MAX_MSG_SIZE) with 128%nat. lia.
Qed.

Lemma wp_ret {A : Type} (a : A) (Q : A -> machine -> Prop) s :
  Q a s -> wp (ret a) Q s.
Proof. intros H. exists a, s. split; [reflexivity | exact H]. Qed.

Lemma wp_bind {A B : Type} (m : M A) (k : A -> M B) (Q : B -> machine -> Prop) s :
  wp m (fun a s' => wp (k a) Q s') s -> wp (mbind k m) Q s.
Proof.
  intros (a & s' & Hm & b & s'' & Hk & HQ).
  exists b, s''. split; [| exact HQ].
  unfold mbind, M_bind, bind. rewrite Hm. exact Hk.
Qed.

Lemma wp_mono {A : Type} (m : M A) (Q Q' : A -> machine -> Prop) s :
  wp m Q s -> (forall a s', Q a s' -> Q' a s') -> wp m Q' s.
Proof. intros (a & s' & Hm & HQ) Himp. exists a, s'. auto. Qed.

Lemma wp_lift {A : Type} (r : res A) (a : A) (Q : A -> machine -> Prop) s :
  r = Ok a -> Q a s -> wp (lift r) Q s.
Proof. intros -> H. exists a, s. split; [reflexivity | exact H]. Qed.

Lemma wp_assert (b : bool) (Q : unit -> machine -> Prop) s :
  b = true -> Q tt s -> wp (assert_param b) Q s.
Proof. intros -> H. exists tt, s. split; [reflexivity | exact H]. Qed.

Lemma wp_emit_call (e : event) g t (Q : unit -> machine -> Prop) s :
  st_any s g t -> on_wire e = e ->
  (forall s', st_any s' g (t ++ [e]) -> Q tt s') ->
  wp (emit e) Q s.
Proof.
  intros (Hg & Ht & Hbuf) He HQ. eexists tt, _. split; [reflexivity |].
  apply HQ. repeat split; cbn; try assumption.
  unfold wire in *. rewrite map_app, Ht. cbn. rewrite He. reflexivity.
Qed.

Lemma wp_pdata_init g t (Q : unit -> machine -> Prop) s :
  st_any s g t ->
  (forall s' sz, st_at s' g t sz [] [] -> Q tt s') ->
  wp pdata_init Q s.
Proof.
  intros (Hg & Ht & Hbuf) HQ. eexists tt, _. split; [reflexivity |].
  apply (HQ _ (msg_size (msg s))). repeat split; cbn; try assumption.
  exists (msg_data (msg s)). repeat split. exact Hbuf.
Qed.

Lemma wp_poke v g t sz pre la (Q : unit -> machine -> Prop) s :
  st_at s g t sz pre la -> (length pre < 128)%nat ->
  (forall s', st_at s' g t sz pre (v :: tail la) -> Q tt s') ->
  wp (poke v) Q s.
Proof.
  intros (Hg & Ht & Hsz & suf & Hdata & Hp & Hlen) Hroom HQ.
  unfold wp, poke. rewrite Hdata, Hp.
  destruct la as [| y la].
  - destruct suf as [| x suf]; [simpl in Hlen; lia |].
    simpl app. rewrite store_middle. eexists tt, _. split; [reflexivity |].
    apply HQ. repeat split; cbn; try assumption.
    exists suf. repeat split; [assumption |]. simpl in *. lia.
  - simpl app. rewrite store_middle. eexists tt, _. split; [reflexivity |].
    apply HQ. repeat split; cbn; try assumption.
    exists suf. repeat split; [assumption |]. simpl in *. lia.
Qed.

Lemma wp_peek x g t sz pre la (Q : Z -> machine -> Prop) s :
  st_at s g t sz pre (x :: la) -> Q x s -> wp peek Q s.
Proof.
  intros (Hg & Ht & Hsz & suf & Hdata & Hp & Hlen) HQ.
  exists x, s. split; [| exact HQ].
  unfold peek. rewrite Hdata, Hp. simpl app. rewrite byte_at_middle. reflexivity.
Qed.

Lemma wp_advance n a b g t sz pre (Q : unit -> machine -> Prop) s :
  st_at s g t sz pre (a ++ b) -> n = Z.of_nat (length a) ->
  (forall s', st_at s' g t sz (pre ++ a) b -> Q tt s') ->
  wp (advance n) Q s.
Proof.
  intros (Hg & Ht & Hsz & suf & Hdata & Hp & Hlen) -> HQ.
  eexists tt, _. split; [reflexivity |].
  apply HQ. repeat split; cbn; try assumption.
  exists suf. rewrite Hdata, <- !app_assoc. split; [reflexivity |].
  rewrite !length_app in *. rewrite Nat2Z.id. lia.
Qed.

Lemma wp_put v g t sz pre la (Q : unit -> machine -> Prop) s :
  st_at s g t sz pre la -> (length pre < 128)%nat ->
  (forall s', st_at s' g t sz (pre ++ [v]) (tail la) -> Q tt s') ->
  wp (put v) Q s.
Proof.
  intros Hs Hroom HQ. unfold put. apply wp_bind.
  apply (wp_poke v g t sz pre la); [assumption .. |].
  intros s1 H1.
  apply (wp_advance 1 [v] (tail la) g t sz pre); [exact H1 | reflexivity | exact HQ].
Qed.

Lemma wp_strcpy str g t sz pre la (Q : unit -> machine -> Prop) s :
  st_at s g t sz pre la -> (length pre + length str < 128)%nat ->
  (forall s', st_at s' g t sz pre (str ++ [0]) -> Q tt s') ->
  wp (strcpy_pdata str) Q s.
Proof.
  intros (Hg & Ht & Hsz & suf & Hdata & Hp & Hlen) Hroom HQ.
  unfold wp, strcpy_pdata. rewrite Hdata, Hp.
  rewrite strcpy_middle by (rewrite length_app; lia).
  eexists tt, _. split; [reflexivity |].
  apply HQ. repeat split; cbn; try assumption.
  exists (drop (S (length str)) (la ++ suf)).
  rewrite <- app_assoc. split; [reflexivity |]. split; [assumption |].
  rewrite !length_app, length_drop, length_app. simpl. lia.
Qed.

Lemma wp_encode_length v g t sz pre la (Q : Z -> machine -> Prop) s :
  st_at s g t sz pre la -> 0 <= v < 128 -> (length pre < 128)%nat ->
  (forall s', st_at s' g t sz pre (v :: tail la) -> Q 1 s') ->
  wp (encode_length_pdata v) Q s.
Proof.
  intros (Hg & Ht & Hsz & suf & Hdata & Hp & Hlen) Hv Hroom HQ.
  unfold wp, encode_length_pdata. rewrite Hdata, Hp.
  destruct la as [| y la].
  - destruct suf as [| x suf]; [simpl in Hlen; lia |].
    simpl app. rewrite encode_length_small by exact Hv.
    eexists 1, _. split; [reflexivity |].
    apply HQ. repeat split; cbn; try assumption.
    exists suf. repeat split; [assumption |]. simpl in *. lia.
  - simpl app. rewrite encode_length_small by exact Hv.
    eexists 1, _. split; [reflexivity |].
    apply HQ. repeat split; cbn; try assumption.
    exists suf. repeat split; [assumption |]. simpl in *. lia.
Qed.

Lemma wp_get_uuid g t sz pre la (Q : Z -> machine -> Prop) s :
  st_at s g t sz pre la -> Q g s -> wp get_uuid Q s.
Proof.
  intros (Hg & _) HQ. exists g, s. split; [| exact HQ].
  unfold get_uuid. rewrite Hg. reflexivity.
Qed.

Lemma wp_uuid_incr g t sz pre la (Q : unit -> machine -> Prop) s :
  st_at s g t sz pre la ->
  (forall s', st_at s' (u16 (g + 1)) t sz pre la -> Q tt s') ->
  wp uuid_incr Q s.
Proof.
  intros (Hg & Ht & Hsz & suf & Hdata & Hp & Hlen) HQ.
  eexists tt, _. split; [reflexivity |].
  apply HQ. repeat split; cbn; try assumption.
  - rewrite Hg. reflexivity.
  - exists suf. auto.
Qed.

Lemma wp_set_size v g t sz pre la (Q : unit -> machine -> Prop) s :
  st_at s g t sz pre la ->
  (forall s', st_at s' g t (u8 v) pre la -> Q tt s') ->
  wp (set_size v) Q s.
Proof.
  intros (Hg & Ht & Hsz & suf & Hdata & Hp & Hlen) HQ.
  eexists tt, _. split; [reflexivity |].
  apply HQ. repeat split; cbn; try assumption.
  exists suf. auto.
Qed.

Lemma wp_send bytes extra g t sz pre la (Q : unit -> machine -> Prop) s :
  st_at s g t sz pre la -> sz = Z.of_nat (length bytes) ->
  pre ++ la = bytes ++ extra ->
  (forall s', st_at s' g (t ++ [queued bytes]) sz pre la -> Q tt s') ->
  wp mqtt_send_data Q s.
Proof.
  intros (Hg & Ht & Hsz & suf & Hdata & Hp & Hlen) Hbytes Hsplit HQ.
  eexists tt, _. split; [reflexivity |].
  apply HQ. repeat split; cbn; try assumption.
  - unfold wire in *. rewrite map_app, Ht. cbn. unfold queued, frame.
    rewrite Hsz, Hbytes, Hdata, Nat2Z.id.
    rewrite app_assoc, Hsplit, <- app_assoc.
    rewrite take_app_length. reflexivity.
  - exists suf. auto.
Qed.

(** ** Builders *)

(** Tactics for the proofs below: the length side condition of a store, and
    one step of a run. *)
Ltac wp_len := rewrite ?length_app; simpl; lia.

Ltac wp_next rule :=
  apply wp_bind; eapply rule; [eassumption | ..].

(** An acknowledgment builder queues its four bytes and changes nothing
    else. *)
Lemma ack_builder_spec (ty id : Z) g t s :
  st_any s g t ->
  wp (pdata_init;; put ty;; put 0x02;; put (u8 (Z.shiftr id 8));;
      put (u8 (Z.land id 0xff));; set_size 4;; mqtt_send_data)
     (fun _ s' => st_any s' g (t ++ [queued (ack_bytes ty id)])) s.
Proof.
  intros Hs.
  wp_next wp_pdata_init. intros s0 sz H0.
  wp_next wp_put; [wp_len |]. intros s1 H1.
  wp_next wp_put; [wp_len |]. intros s2 H2.
  wp_next wp_put; [wp_len |]. intros s3 H3.
  wp_next wp_put; [wp_len |]. intros s4 H4.
  wp_next wp_set_size. intros s5 H5.
  eapply (wp_send (ack_bytes ty id) []); [exact H5 | reflexivity | reflexivity |].
  intros s6 H6. eapply st_at_any. exact H6.
Qed.

Lemma mqtt_puback_spec (id : Z) g t s :
  st_any s g t ->
  wp (mqtt_puback id) (fun _ s' => st_any s' g (t ++ [queued (ack_bytes TYPE_PUBACK id)])) s.
Proof. intros Hs. exact (ack_builder_spec TYPE_PUBACK id g t s Hs). Qed.

Lemma mqtt_pubrec_spec (id : Z) g t s :
  st_any s g t ->
  wp (mqtt_pubrec id) (fun _ s' => st_any s' g (t ++ [queued (ack_bytes TYPE_PUBREC id)])) s.
Proof. intros Hs. exact (ack_builder_spec TYPE_PUBREC id g t s Hs). Qed.

Lemma mqtt_pubcomp_spec (id : Z) g t s :
  st_any s g t ->
  wp (mqtt_pubcomp id) (fun _ s' => st_any s' g (t ++ [queued (ack_bytes TYPE_PUBCOMP id)])) s.
Proof. intros Hs. exact (ack_builder_spec TYPE_PUBCOMP id g t s Hs). Qed.

Lemma strlen_u16 (str : list Z) : (length str < 128)%nat -> u16 (strlen str) = strlen str.
Proof. intros H. apply u16_small. unfold strlen. lia. Qed.

Lemma mqtt_subscribe_spec (topic : list Z) (qos : Z) g t s :
  st_any s g t -> (length topic + 7 <= 128)%nat ->
  wp (mqtt_subscribe topic qos)
     (fun r s' => r = u8 (u16 (g + 1)) /\
        st_any s' (u16 (g + 1)) (t ++ [queued (op_bytes (OpSubscribe topic qos) g)])) s.
Proof.
  intros Hs Hfit. unfold mqtt_subscribe.
  assert (Hn : 0 <= strlen topic <= 121) by (unfold strlen; lia).
  rewrite (u32_small (strlen topic + 5)) by lia.
  rewrite strlen_u16 by lia.
  wp_next wp_pdata_init. intros s0 sz H0.
  wp_next wp_put; [wp_len |]. intros s1 H1.
  wp_next wp_encode_length; [lia | wp_len |]. intros s2 H2.
  apply wp_bind. apply wp_assert.
  { rewrite u32_small by lia. apply Z.leb_le. unfold MQTT_MAX_MSG_SIZE. lia. }
  apply wp_bind.
  eapply (wp_advance 1 [strlen topic + 5] []); [exact H2 | reflexivity |]. intros s3 H3.
  wp_next wp_get_uuid.
  wp_next wp_put; [wp_len |]. intros s4 H4.
  wp_next wp_get_uuid.
  wp_next wp_put; [wp_len |]. intros s5 H5.
  wp_next wp_uuid_incr. intros s6 H6.
  wp_next wp_put; [wp_len |]. intros s7 H7.
  wp_next wp_put; [wp_len |]. intros s8 H8.
  wp_next wp_strcpy; [wp_len |]. intros s9 H9.
  apply wp_bind.
  eapply (wp_advance _ topic [0]); [exact H9 | reflexivity |]. intros s10 H10.
  wp_next wp_poke; [wp_len |]. intros s11 H11.
  wp_next wp_set_size. intros s12 H12.
  apply wp_bind.
  eapply (wp_send (op_bytes (OpSubscribe topic qos) g) []); [exact H12 | | |].
  { rewrite u8_small by lia. unfold op_bytes, lp_string, be16.
    rewrite !length_app. cbn [length]. unfold strlen. lia. }
  { unfold op_bytes, lp_string, be16. cbn [tail]. rewrite <- !app_assoc. reflexivity. }
  intros s13 H13.
  wp_next wp_get_uuid.
  apply wp_ret. split; [reflexivity |]. eapply st_at_any. exact H13.
Qed.

Lemma mqtt_unsubscribe_spec (topic : list Z) g t s :
  st_any s g t -> (length topic + 6 < 128)%nat ->
  wp (mqtt_unsubscribe topic)
     (fun _ s' =>
        st_any s' (u16 (g + 1)) (t ++ [queued (op_bytes (OpUnsubscribe topic) g)])) s.
Proof.
  intros Hs Hfit. unfold mqtt_unsubscribe.
  assert (Hn : 0 <= strlen topic <= 121) by (unfold strlen; lia).
  rewrite (u32_small (strlen topic + 4)) by lia.
  rewrite strlen_u16 by lia.
  wp_next wp_pdata_init. intros s0 sz H0.
  wp_next wp_put; [wp_len |]. intros s1 H1.
  wp_next wp_encode_length; [lia | wp_len |]. intros s2 H2.
  apply wp_bind. apply wp_assert.
  { rewrite u32_small by lia. apply Z.leb_le. unfold MQTT_MAX_MSG_SIZE. lia. }
  apply wp_bind.
  eapply (wp_advance 1 [strlen topic + 4] []); [exact H2 | reflexivity |]. intros s3 H3.
  wp_next wp_get_uuid.
  wp_next wp_put; [wp_len |]. intros s4 H4.
  wp_next wp_get_uuid.
  wp_next wp_put; [wp_len |]. intros s5 H5.
  wp_next wp_uuid_incr. intros s6 H6.
  wp_next wp_put; [wp_len |]. intros s7 H7.
  wp_next wp_put; [wp_len |]. intros s8 H8.
  wp_next wp_strcpy; [wp_len |]. intros s9 H9.
  apply wp_bind.
  eapply (wp_advance _ topic [0]); [exact H9 | reflexivity |]. intros s10 H10.
  wp_next wp_set_size. intros s11 H11.
  eapply (wp_send (op_bytes (OpUnsubscribe topic) g) [0]); [exact H11 | | |].
  { rewrite u8_small by lia. unfold op_bytes, lp_string, be16.
    rewrite !length_app. cbn [length]. unfold strlen. lia. }
  { unfold op_bytes, lp_string, be16. rewrite <- !app_assoc. reflexivity. }
  intros s12 H12. eapply st_at_any. exact H12.
Qed.

Lemma publish_header_eq (dup qos retain : Z) :
  u8 (Z.lor (u8 (Z.lor (u8 (Z.lor TYPE_PUBLISH (Z.shiftl (Z.land dup 0x01) 3)))
                       (Z.shiftl (Z.land qos 0x03) 1)))
            (Z.land retain 0x01))
  = publish_header dup qos retain.
Proof.
  unfold publish_header.
  change 0x01 with (Z.ones 1). change 0x03 with (Z.ones 2).
  rewrite !Z.land_ones by lia. change (2 ^ 1) with 2. change (2 ^ 2) with 4.
  assert (Hd : dup mod 2 = 0 \/ dup mod 2 = 1)
    by (pose proof (Z.mod_pos_bound dup 2); lia).
  assert (Hq : qos mod 4 = 0 \/ qos mod 4 = 1 \/ qos mod 4 = 2 \/ qos mod 4 = 3)
    by (pose proof (Z.mod_pos_bound qos 4); lia).
  assert (Hr : retain mod 2 = 0 \/ retain mod 2 = 1)
    by (pose proof (Z.mod_pos_bound retain 2); lia).
  destruct Hd as [-> | ->];
    destruct Hq as [-> | [-> | [-> | ->]]];
    destruct Hr as [-> | ->]; reflexivity.
Qed.

Lemma mqtt_publish_spec (topic content : list Z) (dup qos retain : Z) g t s :
  st_any s g t -> 0 < qos < 256 ->
  (length topic + length content + 6 < 128)%nat ->
  wp (mqtt_publish topic content dup qos retain)
     (fun _ s' =>
        st_any s' (u16 (g + 1))
          (t ++ [queued (op_bytes (OpPublish topic content dup qos retain) g)])) s.
Proof.
  intros Hs Hqos Hfit. unfold mqtt_publish.
  assert (Hn : 0 <= strlen topic <= 121) by (unfold strlen; lia).
  assert (Hm : 0 <= strlen content <= 121) by (unfold strlen; lia).
  assert (Hnm : strlen topic + strlen content <= 121) by (unfold strlen; lia).
  replace (0 =? qos) with false by (symmetry; apply Z.eqb_neq; lia).
  cbn [negb].
  rewrite (u32_small (strlen topic + 2 + strlen content)) by lia.
  replace (u32 (strlen topic + 2 + strlen content + 2))
    with (strlen topic + 4 + strlen content) by (rewrite u32_small; lia).
  rewrite strlen_u16 by lia.
  wp_next wp_pdata_init. intros s0 sz H0.
  wp_next wp_poke; [wp_len |]. intros s1 H1.
  wp_next wp_peek. wp_next wp_poke; [wp_len |]. intros s2 H2.
  wp_next wp_peek. wp_next wp_poke; [wp_len |]. intros s3 H3.
  wp_next wp_peek. wp_next wp_poke; [wp_len |]. intros s4 H4.
  rewrite publish_header_eq in H4. cbn [tail] in H4.
  apply wp_bind.
  eapply (wp_advance 1 [publish_header dup qos retain] []);
    [exact H4 | reflexivity |]. intros s5 H5.
  wp_next wp_encode_length; [lia | wp_len |]. intros s6 H6.
  apply wp_bind. apply wp_assert.
  { rewrite u32_small by lia. apply Z.leb_le. unfold MQTT_MAX_MSG_SIZE. lia. }
  apply wp_bind.
  eapply (wp_advance 1 [strlen topic + 4 + strlen content] []);
    [exact H6 | reflexivity |]. intros s7 H7.
  wp_next wp_put; [wp_len |]. intros s8 H8.
  wp_next wp_put; [wp_len |]. intros s9 H9.
  wp_next wp_strcpy; [wp_len |]. intros s10 H10.
  apply wp_bind.
  eapply (wp_advance _ topic [0]); [exact H10 | reflexivity |]. intros s11 H11.
  apply wp_bind.
  wp_next wp_get_uuid.
  wp_next wp_put; [wp_len |]. intros s12 H12.
  wp_next wp_get_uuid.
  wp_next wp_put; [wp_len |]. intros s13 H13.
  eapply wp_uuid_incr; [exact H13 |]. intros s14 H14.
  wp_next wp_strcpy; [wp_len |]. intros s15 H15.
  wp_next wp_set_size. intros s16 H16.
  eapply (wp_send (op_bytes (OpPublish topic content dup qos retain) g) [0]);
    [exact H16 | | |].
  { rewrite u8_small by lia. unfold op_bytes, publish_bytes, lp_string, be16.
    rewrite !length_app. cbn [length]. unfold strlen. lia. }
  { unfold op_bytes, publish_bytes, lp_string, be16. cbn [tail].
    rewrite <- !app_assoc. reflexivity. }
  intros s17 H17. eapply st_at_any. exact H17.
Qed.

(** ** Sequences of operations *)

Lemma run_op_spec (o : op) g t s :
  st_any s g t -> op_fits o ->
  wp (run_op o) (fun _ s' => st_any s' (u16 (g + 1)) (t ++ [queued (op_bytes o g)])) s.
Proof.
  intros Hs Hfit. destruct o as [topic content dup qos retain | topic qos | topic];
    cbn [run_op op_fits] in *.
  - destruct Hfit as [Hq Hlen]. apply mqtt_publish_spec; assumption.
  - apply wp_bind. eapply wp_mono; [apply mqtt_subscribe_spec; eassumption |].
    intros r s' [_ Hs']. apply wp_ret. exact Hs'.
  - apply mqtt_unsubscribe_spec; assumption.
Qed.

Lemma u16_succ (g : Z) : u16 (u16 g + 1) = u16 (g + 1).
Proof. unfold u16. apply Zplus_mod_idemp_l. Qed.

Lemma run_ops_spec (ops : list op) g t s :
  st_any s (u16 g) t -> Forall op_fits ops ->
  wp (run_ops ops)
     (fun _ s' =>
        st_any s' (u16 (g + Z.of_nat (length ops)))
          (t ++ imap (fun k o => queued (op_bytes o (u16 (g + Z.of_nat k)))) ops)) s.
Proof.
  revert g t s. induction ops as [| o ops IH]; intros g t s Hs Hfit.
  - apply wp_ret. cbn. rewrite app_nil_r, Z.add_0_r. exact Hs.
  - inversion Hfit as [| ? ? Ho Hops]; subst. cbn [run_ops].
    apply wp_bind. eapply wp_mono; [apply run_op_spec; eassumption |].
    intros u1 s1 H1. cbv beta. rewrite u16_succ in H1.
    eapply wp_mono; [apply (IH _ _ _ H1 Hops) |].
    intros u2 s2 H2. cbv beta in H2.
    rewrite imap_cons, Z.add_0_r. cbn [length].
    replace (g + Z.of_nat (S (length ops))) with (g + 1 + Z.of_nat (length ops)) by lia.
    rewrite <- app_assoc in H2. cbn [app] in H2.
    erewrite imap_ext; [exact H2 |].
    intros k x _. cbn. do 3 f_equal. lia.
Qed.

(** ** Inbound handlers *)

Lemma c_str_nul (str rest : list Z) :
  c_string str -> c_str (str ++ 0 :: rest) = str.
Proof.
  induction 1 as [| c str Hc _ IH]; [reflexivity |].
  cbn [app c_str]. replace (c =? 0) with false by (symmetry; apply Z.eqb_neq; lia).
  rewrite IH. reflexivity.
Qed.

Lemma c_string_take (n : nat) (str : list Z) : c_string str -> c_string (take n str).
Proof. apply Forall_take. Qed.

Lemma strncpy_string (n : nat) (pre str rest : list Z) :
  c_string str -> (n <= length str)%nat ->
  strncpy (pre ++ str ++ rest) (length pre) n = take n str.
Proof.
  revert pre str. induction n as [| n IH]; intros pre str Hstr Hn; [reflexivity |].
  destruct Hstr as [| c str Hc Hstr]; [simpl in Hn; lia |].
  cbn [strncpy]. simpl app. rewrite byte_at_middle.
  replace (c =? 0) with false by (symmetry; apply Z.eqb_neq; lia).
  cbn [take]. f_equal.
  replace (pre ++ c :: str ++ rest) with ((pre ++ [c]) ++ str ++ rest)
    by (rewrite <- app_assoc; reflexivity).
  replace (S (length pre)) with (length (pre ++ [c]))
    by (rewrite length_app; simpl; lia).
  apply IH; [exact Hstr | simpl in Hn; lia].
Qed.

Lemma publish_header_qos (dup qos retain : Z) :
  0 <= qos < 4 ->
  Z.land (Z.shiftr (publish_header dup qos retain) 1) 0x03 = qos.
Proof.
  intros Hq. unfold publish_header. rewrite (Z.mod_small qos 4) by lia.
  assert (Hd : dup mod 2 = 0 \/ dup mod 2 = 1)
    by (pose proof (Z.mod_pos_bound dup 2); lia).
  assert (Hr : retain mod 2 = 0 \/ retain mod 2 = 1)
    by (pose proof (Z.mod_pos_bound retain 2); lia).
  assert (Hq' : qos = 0 \/ qos = 1 \/ qos = 2 \/ qos = 3) by lia.
  destruct Hd as [-> | ->];
    destruct Hq' as [-> | [-> | [-> | ->]]];
    destruct Hr as [-> | ->]; reflexivity.
Qed.

Lemma decode_length_at_1 (data : list Z) (v : Z) :
  byte_at data 1 = v -> 0 <= v < 128 -> decode_length data 0 = Ok (v, 1).
Proof.
  intros Hb Hv. unfold decode_length. cbn [decode_loop]. rewrite Hb.
  rewrite land_0x7f, land_0x80_small by exact Hv.
  rewrite Z.mod_small by exact Hv.
  change (u32 (1 * 128)) with 128.
  change (128 * 128 * 128 <? 128) with false.
  change (negb (0 =? 0)) with false. cbv iota.
  rewrite Z.mul_1_r, Z.add_0_l, u32_small by lia. reflexivity.
Qed.

Lemma process_publish_ack (dup qos retain : Z) (topic : list Z) (id : Z)
    (payload stale : list Z) g t s :
  st_any s g t -> qos = 1 \/ qos = 2 -> c_string topic -> 0 <= id < 65536 ->
  (length (publish_bytes dup qos retain topic id payload) <= 129)%nat ->
  wp (process_publish (publish_bytes dup qos retain topic id payload ++ stale)
        (Z.of_nat (length (publish_bytes dup qos retain topic id payload))))
     (fun _ s' =>
        st_any s' g
          (t ++ [call_publish (take 41 topic) payload (strlen payload);
                 queued (ack_bytes (if qos =? 1 then TYPE_PUBACK else TYPE_PUBREC) id)])) s.
Proof.
  intros Hs Hqos Htopic Hid Hlen.
  unfold publish_bytes, lp_string, be16 in *.
  rewrite !length_app in *. cbn [length] in Hlen |- *.
  rewrite <- !app_assoc. cbn [app].
  set (hdr := publish_header dup qos retain).
  set (n := length topic) in *. set (m := length payload) in *.
  assert (Hn : strlen topic = Z.of_nat n) by reflexivity.
  assert (Hm : strlen payload = Z.of_nat m) by reflexivity.
  remember (hdr :: strlen topic + 4 + strlen payload :: u8 (Z.shiftr (strlen topic) 8)
            :: u8 (Z.land (strlen topic) 255) :: topic
            ++ u8 (Z.shiftr id 8) :: u8 (Z.land id 255) :: payload ++ stale)
    as data eqn:Hdata.
  assert (Hd0 : byte_at data 0 = hdr) by (subst data; reflexivity).
  assert (Hd1 : byte_at data 1 = strlen topic + 4 + strlen payload)
    by (subst data; reflexivity).
  assert (Hd2 : byte_at data 2 = u8 (Z.shiftr (strlen topic) 8))
    by (subst data; reflexivity).
  assert (Hd3 : byte_at data 3 = u8 (Z.land (strlen topic) 255))
    by (subst data; reflexivity).
  assert (Hsplit : data = [hdr; strlen topic + 4 + strlen payload;
                           u8 (Z.shiftr (strlen topic) 8); u8 (Z.land (strlen topic) 255)]
                          ++ topic
                          ++ u8 (Z.shiftr id 8) :: u8 (Z.land id 255) :: payload ++ stale)
    by (subst data; reflexivity).
  assert (Hi0 : byte_at data (4 + n) = u8 (Z.shiftr id 8)).
  { rewrite Hsplit, app_assoc.
    replace (4 + n)%nat with (length ([hdr; strlen topic + 4 + strlen payload;
      u8 (Z.shiftr (strlen topic) 8); u8 (Z.land (strlen topic) 255)] ++ topic))
      by (rewrite length_app; reflexivity).
    apply byte_at_middle. }
  assert (Hi1 : byte_at data (S (4 + n)) = u8 (Z.land id 255)).
  { rewrite Hsplit.
    replace (_ ++ topic ++ u8 (Z.shiftr id 8) :: u8 (Z.land id 255) :: payload ++ stale)
      with (([hdr; strlen topic + 4 + strlen payload;
              u8 (Z.shiftr (strlen topic) 8); u8 (Z.land (strlen topic) 255)]
             ++ topic ++ [u8 (Z.shiftr id 8)]) ++ u8 (Z.land id 255) :: payload ++ stale)
      by (rewrite <- !app_assoc; reflexivity).
    replace (S (4 + n)) with (length ([hdr; strlen topic + 4 + strlen payload;
      u8 (Z.shiftr (strlen topic) 8); u8 (Z.land (strlen topic) 255)]
      ++ topic ++ [u8 (Z.shiftr id 8)]))
      by (rewrite !length_app; cbn [length]; fold n; lia).
    apply byte_at_middle. }
  assert (Hcpy : forall k, (k <= n)%nat -> strncpy data 4 k = take k topic).
  { intros k Hk. rewrite Hsplit.
    apply (strncpy_string k [_; _; _; _]); assumption. }
  assert (Hdrop : drop (S (S (4 + n))) data = payload ++ stale).
  { rewrite Hsplit.
    replace (_ ++ topic ++ u8 (Z.shiftr id 8) :: u8 (Z.land id 255) :: payload ++ stale)
      with (([hdr; strlen topic + 4 + strlen payload;
              u8 (Z.shiftr (strlen topic) 8); u8 (Z.land (strlen topic) 255)]
             ++ topic ++ [u8 (Z.shiftr id 8); u8 (Z.land id 255)]) ++ payload ++ stale)
      by (rewrite <- !app_assoc; reflexivity).
    apply drop_app_length'. rewrite !length_app. cbn [length]. fold n. lia. }
  clear Hdata Hsplit.
  unfold process_publish.
  replace (4 <=? Z.of_nat (2 + (2 + n + (2 + m)))) with true
    by (symmetry; apply Z.leb_le; lia).
  apply wp_bind. eapply wp_lift; [apply (decode_length_at_1 _ _ Hd1); lia |].
  cbn [fst snd]. change (Z.to_nat 1 + 1)%nat with 2%nat.
  rewrite Hd0, Hd2, Hd3.
  rewrite be16_read by lia.
  rewrite Hn, Nat2Z.id.
  rewrite Hi0, Hi1, be16_read by lia.
  unfold hdr. rewrite publish_header_qos by lia.
  replace ((1 =? qos) || (2 =? qos)) with true by (destruct Hqos; subst; reflexivity).
  replace (u32 (u8 (Z.of_nat (2 + (2 + n + (2 + m))) - 2) - 1 - Z.of_nat n - 3))
    with (Z.of_nat m) by (rewrite u8_small, u32_small; lia).
  rewrite Nat2Z.id, Hdrop.
  replace (take m (payload ++ stale)) with payload
    by (symmetry; apply take_app_length).
  replace (c_str (if 42 <=? Z.of_nat n
                  then strncpy data 4 41 ++ [0]
                  else strncpy data 4 n ++ [0]))
    with (take 41 topic).
  2: { destruct (Z.leb_spec 42 (Z.of_nat n)).
       - rewrite Hcpy by lia. symmetry. apply c_str_nul, c_string_take, Htopic.
       - rewrite Hcpy by lia.
         rewrite (take_ge topic n) by (unfold n; lia).
         rewrite (take_ge topic 41) by (fold n; lia).
         symmetry. apply c_str_nul, Htopic. }
  apply wp_bind. eapply wp_emit_call; [exact Hs | reflexivity |].
  intros s1 H1. rewrite Hm.
  destruct Hqos as [-> | ->]; cbn [Z.eqb Pos.eqb].
  - eapply wp_mono; [apply mqtt_puback_spec; exact H1 |].
    intros u s2 H2. rewrite <- app_assoc in H2. exact H2.
  - eapply wp_mono; [apply mqtt_pubrec_spec; exact H1 |].
    intros u s2 H2. rewrite <- app_assoc in H2. exact H2.
Qed.

Lemma process_pubrel_ack (id : Z) (stale : list Z) g t s :
  st_any s g t -> 0 <= id < 65536 ->
  wp (process_pubrel (ack_bytes TYPE_PUBREL id ++ stale) 4)
     (fun _ s' =>
        st_any s' g (t ++ [queued (ack_bytes TYPE_PUBCOMP id); call_pubrel id])) s.
Proof.
  intros Hs Hid. unfold process_pubrel, ack_bytes, be16. cbn [app].
  change (4 <=? 4) with true. cbv iota.
  apply wp_bind. eapply wp_lift; [apply (decode_length_at_1 _ 2); [reflexivity | lia] |].
  cbn [fst]. apply wp_bind. apply wp_assert; [reflexivity |].
  change (byte_at (TYPE_PUBREL :: 2 :: u8 (Z.shiftr id 8) :: u8 (Z.land id 255) :: stale) 2)
    with (u8 (Z.shiftr id 8)).
  change (byte_at (TYPE_PUBREL :: 2 :: u8 (Z.shiftr id 8) :: u8 (Z.land id 255) :: stale) 3)
    with (u8 (Z.land id 255)).
  rewrite be16_read by exact Hid.
  apply wp_bind. eapply wp_mono; [apply mqtt_pubcomp_spec; exact Hs |].
  intros u s1 H1. cbv beta.
  eapply wp_emit_call; [exact H1 | reflexivity |].
  intros s2 H2. rewrite <- app_assoc in H2. exact H2.
Qed.

(** * The claims *)

(** ** Remaining length *)

Lemma encode_loop_step (data size : Z) (buf : list Z) (encode : nat) :
  0 < data / 128 ->
  encode_loop data size buf encode = encode_loop (data / 128) size buf encode.
Proof.
  intros Hpos. rewrite encode_loop_equation_1.
  destruct (Z_lt_dec 0 (data / 128)) as [H | H]; [reflexivity | lia].
Qed.

(** X5: values below 128 (0 and 127 among them) do make the round trip. *)
Lemma remaining_length_roundtrip_one_byte (v hdr b1 : Z) (rest : list Z) :
  0 <= v < 128 ->
  encode_length v (hdr :: b1 :: rest) 1 = Ok (1, hdr :: v :: rest) /\
  decode_length (hdr :: v :: rest) 0 = Ok (v, 1).
Proof.
  intros Hv. split.
  - apply (encode_length_small v [hdr] b1 rest Hv).
  - apply decode_length_at_1; [reflexivity | exact Hv].
Qed.

(** C1: the round trip decode(encode(v)) = (v, len(encode(v))) is claimed for
    v = 128 among others.  In the code, encoding 128 into the buffer after the
    header byte stores the single byte 0x01 (the low digit, which should carry
    the continuation bit, is never stored) and reports 1 byte; decoding that
    frame gives (1, 1), not (128, 1). *)
Theorem remaining_length_roundtrip_128 (hdr b1 : Z) (rest : list Z) :
  encode_length 128 (hdr :: b1 :: rest) 1 = Ok (1, hdr :: 1 :: rest) /\
  decode_length (hdr :: 1 :: rest) 0 = Ok (1, 1) /\
  (1, 1) <> (128, 1).
Proof.
  split; [| split].
  - unfold encode_length. change (u32 128) with 128.
    rewrite encode_loop_step by (vm_compute; reflexivity).
    change (128 / 128) with 1.
    apply (encode_length_small 1 [hdr] b1 rest). lia.
  - apply decode_length_at_1; [reflexivity | lia].
  - intros H. inversion H.
Qed.

(** C6, counterexample: encoding 2097152, which needs a fourth byte and is
    claimed to fail, returns the byte count 1 and stores 0x01: the very result
    of encoding 1. *)
Lemma encode_length_2097152_no_failure :
  encode_length 2097152 [0x10; 0; 0; 0; 0; 0] 1 = Ok (1, [0x10; 1; 0; 0; 0; 0]) /\
  encode_length 2097152 [0x10; 0; 0; 0; 0; 0] 1 = encode_length 1 [0x10; 0; 0; 0; 0; 0] 1.
Proof. split; vm_compute; reflexivity. Qed.

(** C6, amended: the encoder has no failure path.  For every value, also
    above 2,097,151, it returns a byte count between 1 and 4, never an error
    or a sentinel, whenever [encode] points at four bytes of the buffer. *)
Theorem encode_length_never_fails (v : Z) (buf : list Z) (encode : nat) :
  (encode + 4 <= length buf)%nat ->
  exists n buf', encode_length v buf encode = Ok (n, buf') /\ 1 <= n <= 4 /\
    length buf' = length buf.
Proof.
  intros Hroom. unfold encode_length.
  destruct (encode_loop_one_byte (u32 v) 0 buf encode) as (d & _ & _ & ->).
  unfold store. rewrite decide_True by (simpl; lia).
  eexists _, _. split; [reflexivity |]. split.
  - change (u8 (0 + 1)) with 1. lia.
  - apply length_insert.
Qed.

Lemma encode_length_never_fails_witness :
  exists n buf', encode_length 2097152 [0x10; 0; 0; 0; 0; 0] 1 = Ok (n, buf') /\
    1 <= n <= 4 /\ length buf' = length [0x10; 0; 0; 0; 0; 0].
Proof. apply (encode_length_never_fails 2097152 [0x10; 0; 0; 0; 0; 0] 1). simpl. lia. Defined.

(** ** Builders *)

Lemma st_any_start (s : machine) : buf_ok s -> st_any s (g_uuid s) (wire (trace s)).
Proof. intros H. repeat split. exact H. Qed.

Lemma buf_ok_machine_at (g : Z) : buf_ok (machine_at g).
Proof. reflexivity. Qed.

(** C2: the UNSUBSCRIBE frame is claimed to start with 0xa2.  For every topic
    that fits the buffer the builder queues a frame whose first byte is 0x82,
    the SUBSCRIBE type: [mqtt_unsubscribe] writes [TYPE_SUBSCRIBE], and
    [TYPE_UNSUBSCRIBE] is never used.  The rest of the frame is as claimed:
    remaining length, identifier, length-prefixed topic. *)
Theorem unsubscribe_first_byte (topic : list Z) (s : machine) :
  buf_ok s -> (length topic + 6 < 128)%nat ->
  exists s', mqtt_unsubscribe topic s = Ok (tt, s') /\
    wire (trace s') =
      wire (trace s)
        ++ [queued ([0x82; strlen topic + 4] ++ be16 (g_uuid s) ++ lp_string topic)] /\
    0x82 <> TYPE_UNSUBSCRIBE.
Proof.
  intros Hbuf Hfit.
  destruct (mqtt_unsubscribe_spec topic _ _ s (st_any_start s Hbuf) Hfit)
    as ([] & s' & Hrun & _ & Ht & _).
  exists s'. split; [exact Hrun |]. split; [exact Ht |].
  intros H. discriminate H.
Qed.

Lemma unsubscribe_first_byte_witness :
  exists s', mqtt_unsubscribe [97; 47; 98] (machine_at 0) = Ok (tt, s') /\
    wire (trace s') =
      wire (trace (machine_at 0))
        ++ [queued ([0x82; strlen [97; 47; 98] + 4] ++ be16 (g_uuid (machine_at 0))
                    ++ lp_string [97; 47; 98])] /\
    0x82 <> TYPE_UNSUBSCRIBE.
Proof.
  apply (unsubscribe_first_byte [97; 47; 98] (machine_at 0)).
  - apply buf_ok_machine_at.
  - simpl. lia.
Defined.

(** C3: the computed CONNECT payload length is claimed to equal the bytes
    written for every combination, client identifier absent included.  With no
    client identifier (and no will, user name or password)
    [calculate_connect_payload_len] returns 10, while [mqtt_connect] writes 12
    bytes after the remaining-length byte (it adds the empty identifier
    0x00 0x00, which the calculation skips): [pdata] ends at offset 14 and the
    recorded size is 12, so the queued frame lacks the last two bytes
    written. *)
Theorem connect_payload_len_without_client_id :
  calculate_connect_payload_len anonymous_connect (machine_at 0)
    = Ok (10, machine_at 0) /\
  exists s', mqtt_connect anonymous_connect (machine_at 0) = Ok (tt, s') /\
    pdata s' = 14%nat /\
    take 14 (msg_data (msg s'))
      = [0x10; 10; 0x00; 0x04; 77; 81; 84; 84; 0x04; 0x02; 0; 60; 0x00; 0x00] /\
    msg_size (msg s') = 12 /\
    wire (trace s')
      = [queued [0x10; 10; 0x00; 0x04; 77; 81; 84; 84; 0x04; 0x02; 0; 60]].
Proof.
  split; [vm_compute; reflexivity |].
  eexists. split; [vm_compute; reflexivity |].
  repeat split.
Qed.

(** C10, counterexample: with the generator at 255 the SUBSCRIBE frame
    carries identifier 255 (bytes 0x00 0xff) and the builder returns 0, while
    255 + 1 modulo 65536 is 256. *)
Lemma subscribe_return_at_255 :
  exists s', mqtt_subscribe [97] 1 (machine_at 255) = Ok (0, s') /\
    wire (trace s') = [queued [0x82; 6; 0x00; 0xff; 0x00; 0x01; 97; 0x01]] /\
    (255 + 1) mod 65536 = 256.
Proof.
  eexists. split; [vm_compute; reflexivity |]. split; reflexivity.
Qed.

(** C10, amended: the value [mqtt_subscribe] returns is the generator's value
    after the post-use increment cut to the 8 bits of its return type: the
    identifier encoded into the frame plus one, modulo 256 (not modulo 65536,
    and not the identifier used in the frame). *)
Theorem subscribe_return_value (topic : list Z) (qos : Z) (s : machine) :
  buf_ok s -> 0 <= g_uuid s < 65536 -> (length topic + 7 <= 128)%nat ->
  exists s', mqtt_subscribe topic qos s = Ok ((g_uuid s + 1) mod 256, s') /\
    g_uuid s' = (g_uuid s + 1) mod 65536 /\
    wire (trace s') =
      wire (trace s)
        ++ [queued ([TYPE_SUBSCRIBE; strlen topic + 5] ++ be16 (g_uuid s)
                    ++ lp_string topic ++ [Z.land qos 0x03])] /\
    frame_packet_id ([TYPE_SUBSCRIBE; strlen topic + 5] ++ be16 (g_uuid s)
                     ++ lp_string topic ++ [Z.land qos 0x03]) = g_uuid s.
Proof.
  intros Hbuf Hg Hfit.
  destruct (mqtt_subscribe_spec topic qos _ _ s (st_any_start s Hbuf) Hfit)
    as (r & s' & Hrun & -> & Hg' & Ht & _).
  exists s'. split; [| split; [exact Hg' | split; [exact Ht |]]].
  - rewrite Hrun. do 2 f_equal. unfold u8, u16.
    apply Z.mod_mod_divide. exists 256. reflexivity.
  - unfold frame_packet_id, be16. cbn [app].
    change (byte_at (TYPE_SUBSCRIBE :: _) 0) with TYPE_SUBSCRIBE.
    change (Z.land TYPE_SUBSCRIBE 240 =? TYPE_PUBLISH) with false. cbv iota.
    change (byte_at (TYPE_SUBSCRIBE :: strlen topic + 5 :: u8 (Z.shiftr (g_uuid s) 8)
                     :: u8 (Z.land (g_uuid s) 255) :: lp_string topic ++ [Z.land qos 3]) 2)
      with (u8 (Z.shiftr (g_uuid s) 8)).
    change (byte_at (TYPE_SUBSCRIBE :: strlen topic + 5 :: u8 (Z.shiftr (g_uuid s) 8)
                     :: u8 (Z.land (g_uuid s) 255) :: lp_string topic ++ [Z.land qos 3]) 3)
      with (u8 (Z.land (g_uuid s) 255)).
    apply be16_read. exact Hg.
Qed.

Lemma subscribe_return_value_witness :
  exists s', mqtt_subscribe [97] 1 (machine_at 255) = Ok ((g_uuid (machine_at 255) + 1) mod 256, s') /\
    g_uuid s' = (g_uuid (machine_at 255) + 1) mod 65536 /\
    wire (trace s') =
      wire (trace (machine_at 255))
        ++ [queued ([TYPE_SUBSCRIBE; strlen [97] + 5] ++ be16 (g_uuid (machine_at 255))
                    ++ lp_string [97] ++ [Z.land 1 0x03])] /\
    frame_packet_id ([TYPE_SUBSCRIBE; strlen [97] + 5] ++ be16 (g_uuid (machine_at 255))
                     ++ lp_string [97] ++ [Z.land 1 0x03]) = g_uuid (machine_at 255).
Proof.
  apply (subscribe_return_value [97] 1 (machine_at 255)).
  - apply buf_ok_machine_at.
  - simpl. lia.
  - simpl. lia.
Defined.

(** ** Packet identifiers *)

Lemma publish_header_type (dup qos retain : Z) :
  Z.land (publish_header dup qos retain) 0xf0 = TYPE_PUBLISH.
Proof.
  unfold publish_header.
  assert (Hd : dup mod 2 = 0 \/ dup mod 2 = 1)
    by (pose proof (Z.mod_pos_bound dup 2); lia).
  assert (Hq : qos mod 4 = 0 \/ qos mod 4 = 1 \/ qos mod 4 = 2 \/ qos mod 4 = 3)
    by (pose proof (Z.mod_pos_bound qos 4); lia).
  assert (Hr : retain mod 2 = 0 \/ retain mod 2 = 1)
    by (pose proof (Z.mod_pos_bound retain 2); lia).
  destruct Hd as [-> | ->];
    destruct Hq as [-> | [-> | [-> | ->]]];
    destruct Hr as [-> | ->]; reflexivity.
Qed.

(** The identifier a builder drew can be read back from its frame. *)
Lemma op_bytes_packet_id (o : op) (id : Z) :
  op_fits o -> 0 <= id < 65536 -> frame_packet_id (op_bytes o id) = id.
Proof.
  intros Hfit Hid.
  destruct o as [topic content dup qos retain | topic qos | topic];
    cbn [op_fits] in Hfit; unfold frame_packet_id, op_bytes.
  - destruct Hfit as [_ Hlen].
    unfold publish_bytes, lp_string, be16. cbn [app].
    change (byte_at (publish_header dup qos retain :: _) 0)
      with (publish_header dup qos retain).
    rewrite publish_header_type. change (TYPE_PUBLISH =? TYPE_PUBLISH) with true.
    cbv iota.
    set (f := publish_header dup qos retain :: _).
    change (byte_at f 2) with (u8 (Z.shiftr (strlen topic) 8)).
    change (byte_at f 3) with (u8 (Z.land (strlen topic) 255)).
    rewrite (be16_read (strlen topic)) by (unfold strlen; lia).
    unfold strlen at 1 2. rewrite Nat2Z.id.
    assert (Hf : f = [publish_header dup qos retain; strlen topic + 4 + strlen content;
                      u8 (Z.shiftr (strlen topic) 8); u8 (Z.land (strlen topic) 255)]
                     ++ topic ++ u8 (Z.shiftr id 8) :: u8 (Z.land id 255) :: content)
      by reflexivity.
    assert (H0 : byte_at f (4 + length topic) = u8 (Z.shiftr id 8)).
    { rewrite Hf, app_assoc.
      replace (4 + length topic)%nat
        with (length ([publish_header dup qos retain; strlen topic + 4 + strlen content;
                       u8 (Z.shiftr (strlen topic) 8); u8 (Z.land (strlen topic) 255)]
                      ++ topic))
        by (rewrite length_app; reflexivity).
      apply byte_at_middle. }
    assert (H1 : byte_at f (S (4 + length topic)) = u8 (Z.land id 255)).
    { rewrite Hf.
      replace (_ ++ topic ++ u8 (Z.shiftr id 8) :: u8 (Z.land id 255) :: content)
        with (([publish_header dup qos retain; strlen topic + 4 + strlen content;
                u8 (Z.shiftr (strlen topic) 8); u8 (Z.land (strlen topic) 255)]
               ++ topic ++ [u8 (Z.shiftr id 8)]) ++ u8 (Z.land id 255) :: content)
        by (rewrite <- !app_assoc; reflexivity).
      replace (S (4 + length topic))
        with (length ([publish_header dup qos retain; strlen topic + 4 + strlen content;
                       u8 (Z.shiftr (strlen topic) 8); u8 (Z.land (strlen topic) 255)]
                      ++ topic ++ [u8 (Z.shiftr id 8)]))
        by (rewrite !length_app; cbn [length]; lia).
      apply byte_at_middle. }
    rewrite H0, H1. apply be16_read. exact Hid.
  - unfold be16. cbn [app].
    change (byte_at (TYPE_SUBSCRIBE :: _) 0) with TYPE_SUBSCRIBE.
    change (Z.land TYPE_SUBSCRIBE 240 =? TYPE_PUBLISH) with false. cbv iota.
    set (f := TYPE_SUBSCRIBE :: _).
    change (byte_at f 2) with (u8 (Z.shiftr id 8)).
    change (byte_at f 3) with (u8 (Z.land id 255)).
    apply be16_read. exact Hid.
  - unfold be16. cbn [app].
    change (byte_at (TYPE_SUBSCRIBE :: _) 0) with TYPE_SUBSCRIBE.
    change (Z.land TYPE_SUBSCRIBE 240 =? TYPE_PUBLISH) with false. cbv iota.
    set (f := TYPE_SUBSCRIBE :: _).
    change (byte_at f 2) with (u8 (Z.shiftr id 8)).
    change (byte_at f 3) with (u8 (Z.land id 255)).
    apply be16_read. exact Hid.
Qed.

(** C9: [g_uuid] is one 16-bit counter, 0 when the machine starts, shared by
    the publish (qos>0), subscribe and unsubscribe builders.  Any sequence of
    such operations, from any value of the counter, runs to its end; the k-th
    of them puts on the wire a frame whose identifier field is the starting
    value plus k modulo 65536, and the counter ends at the starting value plus
    the number of operations modulo 65536, so that 65535 is followed by 0. *)
Theorem packet_id_sequence (ops : list op) (s : machine) :
  buf_ok s -> 0 <= g_uuid s < 65536 -> Forall op_fits ops ->
  exists s', run_ops ops s = Ok (tt, s') /\
    g_uuid s' = (g_uuid s + Z.of_nat (length ops)) mod 65536 /\
    wire (trace s') =
      wire (trace s)
        ++ imap (fun k o => queued (op_bytes o ((g_uuid s + Z.of_nat k) mod 65536))) ops /\
    (forall k o, ops !! k = Some o ->
       frame_packet_id (op_bytes o ((g_uuid s + Z.of_nat k) mod 65536))
       = (g_uuid s + Z.of_nat k) mod 65536) /\
    (forall m, g_uuid (boot m) = 0) /\
    (65535 + 1) mod 65536 = 0.
Proof.
  intros Hbuf Hg Hfit.
  assert (Hs : st_any s (u16 (g_uuid s)) (wire (trace s))).
  { rewrite u16_small by exact Hg. apply st_any_start. exact Hbuf. }
  destruct (run_ops_spec ops _ _ s Hs Hfit) as ([] & s' & Hrun & Hg' & Ht & _).
  exists s'. split; [exact Hrun |]. split; [exact Hg' |]. split; [exact Ht |].
  split; [| split; [reflexivity | reflexivity]].
  intros k o Hk. apply op_bytes_packet_id.
  - rewrite Forall_lookup in Hfit. exact (Hfit k o Hk).
  - apply Z.mod_pos_bound. lia.
Qed.

Lemma packet_id_sequence_witness :
  exists s',
    run_ops [OpSubscribe [97] 1; OpPublish [97] [1] 0 1 0; OpUnsubscribe [97]]
      (machine_at 65535) = Ok (tt, s') /\
    g_uuid s' = (g_uuid (machine_at 65535) + Z.of_nat 3) mod 65536 /\
    wire (trace s') =
      wire (trace (machine_at 65535))
        ++ imap (fun k o =>
                   queued (op_bytes o ((g_uuid (machine_at 65535) + Z.of_nat k) mod 65536)))
             [OpSubscribe [97] 1; OpPublish [97] [1] 0 1 0; OpUnsubscribe [97]] /\
    (forall k o,
       [OpSubscribe [97] 1; OpPublish [97] [1] 0 1 0; OpUnsubscribe [97]] !! k = Some o ->
       frame_packet_id (op_bytes o ((g_uuid (machine_at 65535) + Z.of_nat k) mod 65536))
       = (g_uuid (machine_at 65535) + Z.of_nat k) mod 65536) /\
    (forall m, g_uuid (boot m) = 0) /\
    (65535 + 1) mod 65536 = 0.
Proof.
  apply (packet_id_sequence
           [OpSubscribe [97] 1; OpPublish [97] [1] 0 1 0; OpUnsubscribe [97]]
           (machine_at 65535)).
  - apply buf_ok_machine_at.
  - simpl. lia.
  - repeat constructor; simpl; lia.
Defined.

(** ** Dispatch *)

Lemma scan_wifi_first (pre : list func_node) (node : func_node)
    (post : list func_node) (data : list Z) (len : Z) :
  Forall (fun n => matches_wifi (byte_at data 0) n = false) pre ->
  matches_wifi (byte_at data 0) node = true ->
  scan_wifi (pre ++ node :: post) data len = process node data (u8 len).
Proof.
  unfold matches_wifi. intros Hpre Hnode.
  induction Hpre as [| n pre Hn _ IH]; cbn [app scan_wifi].
  - apply orb_true_iff in Hnode as [-> | ->]; [reflexivity |].
    destruct (type node =? Z.land (byte_at data 0) 240); reflexivity.
  - apply orb_false_iff in Hn as [-> ->]. exact IH.
Qed.

Lemma scan_wifi_none (nodes : list func_node) (data : list Z) (len : Z) :
  Forall (fun n => matches_wifi (byte_at data 0) n = false) nodes ->
  scan_wifi nodes data len = ret tt.
Proof.
  unfold matches_wifi. induction 1 as [| n nodes Hn _ IH]; cbn [scan_wifi];
    [reflexivity |].
  apply orb_false_iff in Hn as [-> ->]. exact IH.
Qed.

(** C4, counterexample: on the WiFi transport a frame whose first byte is
    0x21, which is not the CONNACK constant 0x20, runs the CONNACK handler
    (its callback fires): a type other than PUBLISH is matched through the
    0xF0 mask.  And the two transports differ: a PUBLISH frame with qos=1
    (first byte 0x32) runs the PUBLISH handler on WiFi and nothing on the
    other transport. *)
Lemma dispatch_mask_not_only_publish :
  (vMqttRecv MODE_NET_WIFI [0x21; 0x02; 0x00; 0x05] 4 (machine_at 0)
   = Ok (tt, {| g_uuid := 0; trace := [call_connack 5];
                msg := msg (machine_at 0); pdata := O |}) /\
   0x21 <> TYPE_CONNACK) /\
  (wire (trace (snd (match vMqttRecv MODE_NET_WIFI
                             [0x32; 0x07; 0x00; 0x01; 97; 0x00; 0x07; 1; 2] 9 (machine_at 0)
                     with Ok r => r | Err _ => (tt, machine_at 0) end)))
   = [call_publish [97] [1; 2] 2; queued [0x40; 0x02; 0x00; 0x07]] /\
   vMqttRecv MODE_NET_M26 [0x32; 0x07; 0x00; 0x01; 97; 0x00; 0x07; 1; 2] 9 (machine_at 0)
   = Ok (tt, machine_at 0)).
Proof.
  split; split.
  - vm_compute. reflexivity.
  - intros H. discriminate H.
  - vm_compute. reflexivity.
  - vm_compute. reflexivity.
Qed.

(** C4, amended: on the WiFi transport the table is scanned in order and an
    entry matches when its type constant equals the first byte masked with
    0xF0 or equals the first byte itself, whichever the entry (PUBLISH or
    not); the first matching entry's handler runs, with the length cut to 8
    bits, and the scan stops; a frame no entry matches runs no handler.  On
    either transport a frame whose first byte is the type constant of an entry
    runs the handler of that entry. *)
Theorem dispatch_first_match (data : list Z) (len : Z) :
  (forall pre node post,
     funcs = pre ++ node :: post ->
     Forall (fun n => matches_wifi (byte_at data 0) n = false) pre ->
     matches_wifi (byte_at data 0) node = true ->
     vMqttRecv MODE_NET_WIFI data len = process node data (u8 len)) /\
  (Forall (fun n => matches_wifi (byte_at data 0) n = false) funcs ->
   vMqttRecv MODE_NET_WIFI data len = ret tt) /\
  (forall mode node,
     node ∈ funcs -> byte_at data 0 = type node ->
     vMqttRecv mode data len = process node data (u8 len)).
Proof.
  split; [| split].
  - intros pre node post Hfuncs Hpre Hnode. unfold vMqttRecv.
    rewrite Hfuncs. apply scan_wifi_first; assumption.
  - intros Hnone. unfold vMqttRecv. apply scan_wifi_none. exact Hnone.
  - intros mode node Hin Hb. unfold funcs in Hin.
    repeat (apply elem_of_cons in Hin as [-> | Hin]);
      try (cbn [type] in Hb; destruct mode;
           unfold vMqttRecv, funcs, scan_wifi, scan_m26; rewrite Hb; reflexivity).
    apply elem_of_nil in Hin. destruct Hin.
Qed.

Lemma dispatch_first_match_witness :
  vMqttRecv MODE_NET_WIFI [0x32; 0x07; 0x00; 0x01; 97; 0x00; 0x07; 1; 2] 9
  = process_publish [0x32; 0x07; 0x00; 0x01; 97; 0x00; 0x07; 1; 2] (u8 9).
Proof.
  apply (proj1 (dispatch_first_match [0x32; 0x07; 0x00; 0x01; 97; 0x00; 0x07; 1; 2] 9)
           [{| type := TYPE_CONNACK; process := process_connack |}]
           {| type := TYPE_PUBLISH; process := process_publish |}
           (skipn 2 funcs)).
  - reflexivity.
  - repeat constructor.
  - reflexivity.
Defined.

(** ** Short frames *)

Lemma guard_short (len : Z) : 0 <= len < 4 -> (4 <=? u8 len) = false.
Proof. intros H. rewrite u8_small by lia. apply Z.leb_gt. lia. Qed.

(** C5, counterexample: the two-byte frame 0xd0 0x00 (a PINGRESP, shorter
    than 4 bytes) is not ignored: on either transport the [pingresp] callback
    is invoked. *)
Lemma short_pingresp_not_ignored :
  vMqttRecv MODE_NET_WIFI [0xd0; 0x00] 2 (machine_at 0)
  = Ok (tt, {| g_uuid := 0; trace := [call_pingresp];
               msg := msg (machine_at 0); pdata := O |}) /\
  vMqttRecv MODE_NET_M26 [0xd0; 0x00] 2 (machine_at 0)
  = Ok (tt, {| g_uuid := 0; trace := [call_pingresp];
               msg := msg (machine_at 0); pdata := O |}).
Proof. split; vm_compute; reflexivity. Qed.

(** C5, amended: a frame shorter than 4 bytes that the table routes to the
    CONNACK, PUBLISH, PUBACK, PUBREC, PUBREL, PUBCOMP, SUBACK or UNSUBACK
    handler is ignored: the machine is unchanged, so no callback is invoked
    and no frame queued.  The PINGRESP handler has no length test: a frame
    routed to it invokes the [pingresp] callback, and nothing else, whatever
    its length.  A short frame is routed to PINGRESP only when its first byte
    masked with 0xF0 is 0xd0. *)
Theorem short_frame_ignored (mode : net_mode) (data : list Z) (len : Z) (s : machine) :
  0 <= len < 4 ->
  (Z.land (byte_at data 0) 0xf0 <> TYPE_PINGRESP ->
   vMqttRecv mode data len s = Ok (tt, s)) /\
  (vMqttRecv mode data len s = Ok (tt, s) \/
   vMqttRecv mode data len s = process_pingresp data (u8 len) s) /\
  Forall (fun node => type node <> TYPE_PINGRESP ->
                      process node data (u8 len) s = Ok (tt, s)) funcs /\
  process_pingresp data (u8 len) s
  = Ok (tt, {| g_uuid := g_uuid s; trace := trace s ++ [call_pingresp];
               msg := msg s; pdata := pdata s |}).
Proof.
  intros Hlen. pose proof (guard_short len Hlen) as Hguard.
  assert (Hall : Forall (fun node => type node <> TYPE_PINGRESP ->
                                     process node data (u8 len) s = Ok (tt, s)) funcs).
  { unfold funcs. repeat constructor; cbn [type process]; intros Hty;
      try (exfalso; apply Hty; reflexivity);
      unfold process_connack, process_publish, process_puback, process_pubrec,
        process_pubrel, process_pubcomp, process_suback, process_unsuback;
      rewrite Hguard; reflexivity. }
  assert (Hroute : vMqttRecv mode data len s = Ok (tt, s) \/
                   (vMqttRecv mode data len s = process_pingresp data (u8 len) s /\
                    Z.land (byte_at data 0) 0xf0 = TYPE_PINGRESP)).
  { destruct mode; unfold vMqttRecv, funcs; cbn [scan_wifi scan_m26 type process];
      repeat match goal with
      | |- context [if ?c =? ?b then _ else _] =>
          destruct (Z.eqb_spec c b)
      end;
      try (left; unfold process_connack, process_publish, process_puback,
             process_pubrec, process_pubrel, process_pubcomp, process_suback,
             process_unsuback; rewrite Hguard; reflexivity);
      try (left; reflexivity);
      right; (split; [reflexivity |]);
      try (symmetry; assumption);
      match goal with
      | H : TYPE_PINGRESP = byte_at data 0 |- _ => rewrite <- H; reflexivity
      end. }
  split; [| split; [| split; [exact Hall | reflexivity]]].
  - intros Hnot. destruct Hroute as [H | [_ H]]; [exact H | contradiction].
  - destruct Hroute as [H | [H _]]; [left | right]; exact H.
Qed.

Lemma short_frame_ignored_witness :
  (Z.land (byte_at [0x20; 0x02; 0x00] 0) 0xf0 <> TYPE_PINGRESP ->
   vMqttRecv MODE_NET_WIFI [0x20; 0x02; 0x00] 3 (machine_at 0) = Ok (tt, machine_at 0)) /\
  (vMqttRecv MODE_NET_WIFI [0x20; 0x02; 0x00] 3 (machine_at 0) = Ok (tt, machine_at 0) \/
   vMqttRecv MODE_NET_WIFI [0x20; 0x02; 0x00] 3 (machine_at 0)
   = process_pingresp [0x20; 0x02; 0x00] (u8 3) (machine_at 0)) /\
  Forall (fun node => type node <> TYPE_PINGRESP ->
                      process node [0x20; 0x02; 0x00] (u8 3) (machine_at 0)
                      = Ok (tt, machine_at 0)) funcs /\
  process_pingresp [0x20; 0x02; 0x00] (u8 3) (machine_at 0)
  = Ok (tt, {| g_uuid := g_uuid (machine_at 0);
               trace := trace (machine_at 0) ++ [call_pingresp];
               msg := msg (machine_at 0); pdata := pdata (machine_at 0) |}).
Proof.
  apply (short_frame_ignored MODE_NET_WIFI [0x20; 0x02; 0x00] 3 (machine_at 0)). lia.
Defined.

(** ** Inbound QoS handshakes *)

(** C7, counterexample: a well-formed PUBLISH frame with qos=1, identifier 7
    and a topic of 45 bytes (53 bytes in all, within the receive buffer) is
    processed without fault, but the [publish] callback is handed the first 41
    bytes of the topic, not the topic of the frame: the handler copies it into
    [char topic[42]]. *)
Lemma inbound_publish_long_topic_cut :
  c_string (repeat 97%Z 45%nat) /\
  (length (publish_bytes 0 1 0 (repeat 97%Z 45%nat) 7 [1%Z; 2%Z]) <= 65)%nat /\
  (exists s',
     process_publish (publish_bytes 0 1 0 (repeat 97%Z 45%nat) 7 [1; 2] ++ [0; 0])
       (Z.of_nat (length (publish_bytes 0 1 0 (repeat 97%Z 45%nat) 7 [1; 2])))
       (machine_at 0)
     = Ok (tt, s') /\
     wire (trace s') =
       [call_publish (repeat 97%Z 41%nat) [1; 2] 2; queued [0x40; 0x02; 0x00; 0x07]]) /\
  repeat 97%Z 41%nat <> repeat 97%Z 45%nat.
Proof.
  split; [| split; [| split]].
  - cbn [repeat]. repeat constructor; lia.
  - vm_compute. lia.
  - eexists. split; vm_compute; reflexivity.
  - intros H. apply (f_equal (@length Z)) in H. vm_compute in H. discriminate H.
Qed.

(** C7, amended: for every well-formed PUBLISH frame with qos=1 and
    identifier [id] that the receive buffer can hold, [process_publish] ends
    without fault and adds exactly two events, in this order: one call of the
    [publish] callback with the payload and its length and with the first 41
    bytes of the topic of the frame, which is the whole topic when it is
    shorter than 42 bytes, then one PUBACK frame 0x40 0x02 carrying [id] handed
    to the send queue.  [g_uuid] is not touched. *)
Theorem inbound_publish_qos1 (dup retain : Z) (topic : list Z) (id : Z)
    (payload stale : list Z) (s : machine) :
  buf_ok s -> c_string topic -> 0 <= id < 65536 ->
  (length (publish_bytes dup 1 retain topic id payload) <= 65)%nat ->
  exists s',
    process_publish (publish_bytes dup 1 retain topic id payload ++ stale)
      (Z.of_nat (length (publish_bytes dup 1 retain topic id payload))) s
    = Ok (tt, s') /\
    g_uuid s' = g_uuid s /\
    wire (trace s') =
      wire (trace s)
        ++ [call_publish (take 41 topic) payload (strlen payload);
            queued ([TYPE_PUBACK; 0x02] ++ be16 id)] /\
    ((length topic < 42)%nat -> take 41 topic = topic) /\
    frame_packet_id ([TYPE_PUBACK; 0x02] ++ be16 id) = id.
Proof.
  intros Hbuf Htopic Hid Hlen.
  destruct (process_publish_ack dup 1 retain topic id payload stale _ _ s
              (st_any_start s Hbuf) (or_introl eq_refl) Htopic Hid)
    as ([] & s' & Hrun & Hg & Ht & _); [lia |].
  exists s'. split; [exact Hrun |]. split; [exact Hg |]. split; [exact Ht |].
  split; [intros Hshort; apply take_ge; lia |].
  unfold frame_packet_id, be16. cbn [app].
  change (byte_at (TYPE_PUBACK :: _) 0) with TYPE_PUBACK.
  change (Z.land TYPE_PUBACK 240 =? TYPE_PUBLISH) with false. cbv iota.
  set (f := TYPE_PUBACK :: _).
  change (byte_at f 2) with (u8 (Z.shiftr id 8)).
  change (byte_at f 3) with (u8 (Z.land id 255)).
  apply be16_read. exact Hid.
Qed.

Lemma inbound_publish_qos1_witness :
  exists s',
    process_publish (publish_bytes 0 1 0 [97; 47; 98] 7 [1; 2] ++ [0; 0])
      (Z.of_nat (length (publish_bytes 0 1 0 [97; 47; 98] 7 [1; 2]))) (machine_at 0)
    = Ok (tt, s') /\
    g_uuid s' = g_uuid (machine_at 0) /\
    wire (trace s') =
      wire (trace (machine_at 0))
        ++ [call_publish (take 41 [97; 47; 98]) [1; 2] (strlen [1; 2]);
            queued ([TYPE_PUBACK; 0x02] ++ be16 7)] /\
    ((length [97; 47; 98] < 42)%nat -> take 41 [97; 47; 98] = [97; 47; 98]) /\
    frame_packet_id ([TYPE_PUBACK; 0x02] ++ be16 7) = 7.
Proof.
  apply (inbound_publish_qos1 0 0 [97; 47; 98] 7 [1; 2] [0; 0] (machine_at 0)).
  - apply buf_ok_machine_at.
  - repeat constructor; lia.
  - lia.
  - simpl. lia.
Defined.

(** C8: for every well-formed PUBLISH frame with qos=2 and identifier [id]
    that the receive buffer can hold, [process_publish] calls the [publish]
    callback and then hands exactly one PUBREC frame 0x50 0x02 carrying [id]
    to the send queue; and for every PUBREL frame 0x62 0x02 carrying [id],
    [process_pubrel] hands exactly one PUBCOMP frame 0x70 0x02 carrying [id]
    to the send queue and only then calls the [pubrel] callback with [id]. *)
Theorem inbound_qos2_handshake (dup retain : Z) (topic : list Z) (id : Z)
    (payload stale : list Z) (s : machine) :
  buf_ok s -> c_string topic -> 0 <= id < 65536 ->
  (length (publish_bytes dup 2 retain topic id payload) <= 65)%nat ->
  (exists s',
     process_publish (publish_bytes dup 2 retain topic id payload ++ stale)
       (Z.of_nat (length (publish_bytes dup 2 retain topic id payload))) s
     = Ok (tt, s') /\
     g_uuid s' = g_uuid s /\
     wire (trace s') =
       wire (trace s)
         ++ [call_publish (take 41 topic) payload (strlen payload);
             queued ([TYPE_PUBREC; 0x02] ++ be16 id)]) /\
  (exists s',
     process_pubrel (([TYPE_PUBREL; 0x02] ++ be16 id) ++ stale) 4 s = Ok (tt, s') /\
     g_uuid s' = g_uuid s /\
     wire (trace s') =
       wire (trace s) ++ [queued ([TYPE_PUBCOMP; 0x02] ++ be16 id); call_pubrel id]).
Proof.
  intros Hbuf Htopic Hid Hlen. split.
  - destruct (process_publish_ack dup 2 retain topic id payload stale _ _ s
                (st_any_start s Hbuf) (or_intror eq_refl) Htopic Hid)
      as ([] & s' & Hrun & Hg & Ht & _); [lia |].
    exists s'. auto.
  - destruct (process_pubrel_ack id stale _ _ s (st_any_start s Hbuf) Hid)
      as ([] & s' & Hrun & Hg & Ht & _).
    exists s'. auto.
Qed.

Lemma inbound_qos2_handshake_witness :
  (exists s',
     process_publish (publish_bytes 0 2 0 [97; 47; 98] 9 [1; 2] ++ [0; 0])
       (Z.of_nat (length (publish_bytes 0 2 0 [97; 47; 98] 9 [1; 2]))) (machine_at 0)
     = Ok (tt, s') /\
     g_uuid s' = g_uuid (machine_at 0) /\
     wire (trace s') =
       wire (trace (machine_at 0))
         ++ [call_publish (take 41 [97; 47; 98]) [1; 2] (strlen [1; 2]);
             queued ([TYPE_PUBREC; 0x02] ++ be16 9)]) /\
  (exists s',
     process_pubrel (([TYPE_PUBREL; 0x02] ++ be16 9) ++ [0; 0]) 4 (machine_at 0)
     = Ok (tt, s') /\
     g_uuid s' = g_uuid (machine_at 0) /\
     wire (trace s') =
       wire (trace (machine_at 0))
         ++ [queued ([TYPE_PUBCOMP; 0x02] ++ be16 9); call_pubrel 9]).
Proof.
  apply (inbound_qos2_handshake 0 0 [97; 47; 98] 9 [1; 2] [0; 0] (machine_at 0)).
  - apply buf_ok_machine_at.
  - repeat constructor; lia.
  - lia.
  - simpl. lia.
Defined.

(** * Further properties of the code *)

(** ** [decode_length] *)

Lemma land_0x80_set (x : Z) : 0 <= x < 128 -> Z.land (x + 128) 0x80 = 128.
Proof.
  intros H. apply Z.bits_inj'. intros n Hn.
  rewrite Z.land_spec.
  destruct (Z.eq_dec n 7) as [-> | Hne].
  - assert (Hbit : Z.testbit 128 7 = true) by reflexivity.
    rewrite Hbit, andb_true_r.
    apply Z.testbit_true; [lia |].
    change (2 ^ 7) with 128.
    replace (x + 128) with (x + 1 * 128) by lia.
    rewrite Z.div_add by lia. rewrite Z.div_small by lia. reflexivity.
  - assert (Hbit : Z.testbit 128 n = false)
      by (change 128 with (2 ^ 7); apply Z.pow2_bits_false; lia).
    rewrite Hbit. apply andb_false_r.
Qed.

Lemma land_0x7f_set (x : Z) : 0 <= x < 128 -> Z.land (x + 128) 0x7f = x.
Proof.
  intros H. rewrite land_0x7f.
  replace (x + 128) with (x + 1 * 128) by lia.
  rewrite Z.mod_add by lia. apply Z.mod_small. exact H.
Qed.

(** One round of the loop on a byte with the continuation bit. *)
Lemma decode_loop_continue (fuel : nat) (data : list Z) (decode : nat)
    (step value multipiler d : Z) :
  byte_at data (S decode) = d + 128 -> 0 <= d < 128 ->
  0 <= value -> 0 < multipiler <= 16384 -> value < multipiler ->
  0 <= step < 4 ->
  decode_loop (S fuel) data decode step value multipiler
  = decode_loop fuel data (S decode) (step + 1) (value + d * multipiler)
      (multipiler * 128).
Proof.
  intros Hb Hd Hv Hm Hvm Hs. cbn [decode_loop]. rewrite Hb.
  rewrite land_0x7f_set, land_0x80_set by exact Hd.
  rewrite (u32_small (multipiler * 128)) by lia.
  replace (128 * 128 * 128 <? multipiler * 128) with false
    by (symmetry; apply Z.ltb_ge; lia).
  change (negb (128 =? 0)) with true. cbv iota.
  rewrite u8_small by lia. rewrite u32_small by nia. reflexivity.
Qed.

(** The round of the loop on a last byte, before the fourth. *)
Lemma decode_loop_last (fuel : nat) (data : list Z) (decode : nat)
    (step value multipiler d : Z) :
  byte_at data (S decode) = d -> 0 <= d < 128 ->
  0 <= value -> 0 < multipiler <= 16384 -> value < multipiler ->
  0 <= step < 4 ->
  decode_loop (S fuel) data decode step value multipiler
  = Ok (value + d * multipiler, step + 1).
Proof.
  intros Hb Hd Hv Hm Hvm Hs. cbn [decode_loop]. rewrite Hb.
  rewrite land_0x7f, land_0x80_small by exact Hd.
  rewrite (Z.mod_small d 128) by exact Hd.
  rewrite (u32_small (multipiler * 128)) by lia.
  replace (128 * 128 * 128 <? multipiler * 128) with false
    by (symmetry; apply Z.ltb_ge; lia).
  change (negb (0 =? 0)) with false. cbv iota.
  rewrite u8_small by lia. rewrite u32_small by nia. reflexivity.
Qed.

(** X1: [decode_length] reads back every remaining length of one to three
    bytes: the value, and in [*step] the number of bytes it took. *)
Theorem decode_length_varint (v hdr : Z) (rest : list Z) :
  0 <= v < 2097152 ->
  decode_length (hdr :: varint v ++ rest) 0
  = Ok (v, Z.of_nat (length (varint v))).
Proof.
  intros Hv. unfold decode_length, varint.
  destruct (Z.ltb_spec v 128) as [H1 | H1].
  - cbn [varint_digits app length].
    rewrite (decode_loop_last 3 _ 0 0 0 1 v) by (try reflexivity; lia).
    do 2 f_equal. lia.
  - assert (Hq1 : 0 <= v mod 128 < 128) by (apply Z.mod_pos_bound; lia).
    pose proof (Z.div_mod v 128 ltac:(lia)) as Hdm1.
    destruct (Z.ltb_spec v 16384) as [H2 | H2].
    + cbn [varint_digits app length].
      rewrite (decode_loop_continue 3 _ 0 0 0 1 (v mod 128)) by (try reflexivity; lia).
      rewrite (decode_loop_last 2 _ 1 _ _ _ (v / 128)) by (try reflexivity; lia).
      do 2 f_equal. lia.
    + assert (Hq2 : 0 <= (v / 128) mod 128 < 128) by (apply Z.mod_pos_bound; lia).
      pose proof (Z.div_mod (v / 128) 128 ltac:(lia)) as Hdm2.
      destruct (Z.ltb_spec v 2097152) as [H3 | H3]; [| lia].
      cbn [varint_digits app length].
      rewrite (decode_loop_continue 3 _ 0 0 0 1 (v mod 128)) by (try reflexivity; lia).
      rewrite (decode_loop_continue 2 _ 1 _ _ _ ((v / 128) mod 128))
        by (try reflexivity; lia).
      rewrite (decode_loop_last 1 _ 2 _ _ _ (v / 128 / 128)) by (try reflexivity; lia).
      do 2 f_equal. lia.
Qed.

Lemma decode_length_varint_witness :
  decode_length (0x30 :: varint 321 ++ [7; 7]) 0
  = Ok (321, Z.of_nat (length (varint 321))).
Proof. apply (decode_length_varint 321 0x30 [7; 7]). lia. Defined.

(** X2: whatever follows, three length bytes with the continuation bit make
    [decode_length] read a fourth byte and report overflow: the sentinel
    0xffffffff, with [*step] at 4.  A valid four-byte remaining length
    (2,097,152 and above) is therefore never decoded. *)
Theorem decode_length_overflow (data : list Z) (decode : nat) :
  Z.land (byte_at data (S decode)) 0x80 <> 0 ->
  Z.land (byte_at data (S (S decode))) 0x80 <> 0 ->
  Z.land (byte_at data (S (S (S decode)))) 0x80 <> 0 ->
  decode_length data decode = Ok (0xffffffff, 4).
Proof.
  intros H1 H2 H3. unfold decode_length. cbn [decode_loop].
  apply Z.eqb_neq in H1, H2, H3. rewrite H1, H2, H3.
  change (u32 (1 * 128)) with 128.
  change (u32 (128 * 128)) with 16384.
  change (u32 (16384 * 128)) with 2097152.
  change (u32 (2097152 * 128)) with 268435456.
  reflexivity.
Qed.

Lemma decode_length_overflow_witness :
  decode_length (0x30 :: varint 2097152 ++ [7; 7]) 0 = Ok (0xffffffff, 4).
Proof.
  apply (decode_length_overflow (0x30 :: varint 2097152 ++ [7; 7]) 0);
    vm_compute; discriminate.
Defined.

(** X3: [decode_length] always returns: it reads between one and four bytes, and
    its result is either the overflow sentinel 0xffffffff, after four bytes, or
    a value below 2,097,152, after at most three: the sentinel is never a
    decoded value. *)
Theorem decode_length_range (data : list Z) (decode : nat) :
  exists value step, decode_length data decode = Ok (value, step) /\
    ((value = 0xffffffff /\ step = 4) \/
     (0 <= value < 2097152 /\ 1 <= step <= 3)).
Proof.
  unfold decode_length. cbn [decode_loop].
  rewrite !land_0x7f.
  pose proof (Z.mod_pos_bound (byte_at data (S decode)) 128 ltac:(lia)) as B1.
  pose proof (Z.mod_pos_bound (byte_at data (S (S decode))) 128 ltac:(lia)) as B2.
  pose proof (Z.mod_pos_bound (byte_at data (S (S (S decode)))) 128 ltac:(lia)) as B3.
  set (d1 := byte_at data (S decode) mod 128) in *.
  set (d2 := byte_at data (S (S decode)) mod 128) in *.
  set (d3 := byte_at data (S (S (S decode))) mod 128) in *.
  change (u32 (1 * 128)) with 128.
  change (u32 (128 * 128)) with 16384.
  change (u32 (16384 * 128)) with 2097152.
  change (u32 (2097152 * 128)) with 268435456.
  change (128 * 128 * 128 <? 128) with false.
  change (128 * 128 * 128 <? 16384) with false.
  change (128 * 128 * 128 <? 2097152) with false.
  change (128 * 128 * 128 <? 268435456) with true.
  change (u8 (0 + 1)) with 1. change (u8 (1 + 1)) with 2.
  change (u8 (2 + 1)) with 3. change (u8 (3 + 1)) with 4.
  cbv iota.
  rewrite (u32_small (0 + d1 * 1)) by lia.
  rewrite (u32_small (0 + d1 * 1 + d2 * 128)) by lia.
  rewrite (u32_small (0 + d1 * 1 + d2 * 128 + d3 * 16384)) by lia.
  destruct (negb (Z.land (byte_at data (S decode)) 128 =? 0)).
  2: { eexists _, _. split; [reflexivity |]. right. lia. }
  destruct (negb (Z.land (byte_at data (S (S decode))) 128 =? 0)).
  2: { eexists _, _. split; [reflexivity |]. right. lia. }
  destruct (negb (Z.land (byte_at data (S (S (S decode)))) 128 =? 0)).
  2: { eexists _, _. split; [reflexivity |]. right. lia. }
  eexists _, _. split; [reflexivity |]. left. split; reflexivity.
Qed.

(** ** [encode_length] *)

(** X4: [encode_length] always reports one byte and changes one byte of the
    buffer, [encode[0]]: the value itself below 128, and above it the most
    significant base-128 digit only (for a two-digit value, [v / 128]).
    Outside the buffer the store is out of bounds. *)
Theorem encode_length_stores_one_byte (v : Z) (buf : list Z) (encode : nat) :
  (encode < length buf)%nat ->
  exists d, 0 <= d < 128 /\
    encode_length v buf encode = Ok (1, <[encode := d]> buf) /\
    (0 <= v < 128 -> d = v) /\
    (128 <= v < 16384 -> d = v / 128).
Proof.
  intros Hroom. unfold encode_length.
  destruct (Z_lt_dec 0 (u32 v / 128)) as [Hbig | Hsmall].
  - rewrite encode_loop_step by exact Hbig.
    destruct (encode_loop_one_byte (u32 v / 128) 0 buf encode)
      as (d & Hd & Hsame & ->).
    exists d. split; [exact Hd |]. split; [| split].
    + unfold store. simpl Z.to_nat. rewrite Nat.add_0_r.
      rewrite decide_True by exact Hroom. reflexivity.
    + intros Hv. exfalso. rewrite u32_small in Hbig by lia.
      rewrite Z.div_small in Hbig by exact Hv. lia.
    + intros Hv. rewrite u32_small in Hsame by lia. apply Hsame.
      split; [apply Z.div_pos; lia | apply Z.div_lt_upper_bound; lia].
  - destruct (encode_loop_one_byte (u32 v) 0 buf encode)
      as (d & Hd & Hsame & ->).
    exists d. split; [exact Hd |]. split; [| split].
    + unfold store. simpl Z.to_nat. rewrite Nat.add_0_r.
      rewrite decide_True by exact Hroom. reflexivity.
    + intros Hv. rewrite u32_small in Hsame by lia. apply Hsame. exact Hv.
    + intros Hv. exfalso. rewrite u32_small in Hsmall by lia.
      assert (1 <= v / 128) by (apply Z.div_le_lower_bound; lia). lia.
Qed.

Lemma encode_length_stores_one_byte_witness :
  exists d, 0 <= d < 128 /\
    encode_length 321 [0x30; 0; 0; 0] 1 = Ok (1, <[1%nat := d]> [0x30; 0; 0; 0]) /\
    (0 <= 321 < 128 -> d = 321) /\
    (128 <= 321 < 16384 -> d = 321 / 128).
Proof.
  apply (encode_length_stores_one_byte 321 [0x30; 0; 0; 0] 1). simpl. lia.
Defined.

(** ** Handlers of the acknowledgments *)

(** The common start of the handlers: the length test, [decode_length] and
    the parameter check on a one-byte remaining length. *)
Lemma handler_checked (data : list Z) (rl : Z) (k : M unit) (s : machine) :
  byte_at data 1 = rl -> 0 <= rl < 128 ->
  (r ← lift (decode_length data 0); assert_param (fst r =? rl);; k) s = k s.
Proof.
  intros Hb Hrl. unfold mbind, M_bind, bind, lift.
  rewrite (decode_length_at_1 data rl Hb Hrl). cbn [fst].
  rewrite Z.eqb_refl. reflexivity.
Qed.

Lemma process_puback_frame (b0 id : Z) (stale : list Z) (len : Z) (s : machine) :
  4 <= len -> 0 <= id < 65536 ->
  process_puback (b0 :: 0x02 :: be16 id ++ stale) len s
  = Ok (tt, with_event s (call_puback id)).
Proof.
  intros Hlen Hid. unfold process_puback.
  replace (4 <=? len) with true by (symmetry; apply Z.leb_le; exact Hlen).
  rewrite (handler_checked _ 2) by (try reflexivity; lia).
  unfold be16. cbn [app].
  set (data := b0 :: _).
  change (byte_at data 2) with (u8 (Z.shiftr id 8)).
  change (byte_at data 3) with (u8 (Z.land id 255)).
  rewrite be16_read by exact Hid. reflexivity.
Qed.

Lemma process_pubrec_frame (b0 id : Z) (stale : list Z) (len : Z) (s : machine) :
  4 <= len -> 0 <= id < 65536 ->
  process_pubrec (b0 :: 0x02 :: be16 id ++ stale) len s
  = Ok (tt, with_event s (call_pubrec id)).
Proof.
  intros Hlen Hid. unfold process_pubrec.
  replace (4 <=? len) with true by (symmetry; apply Z.leb_le; exact Hlen).
  rewrite (handler_checked _ 2) by (try reflexivity; lia).
  unfold be16. cbn [app].
  set (data := b0 :: _).
  change (byte_at data 2) with (u8 (Z.shiftr id 8)).
  change (byte_at data 3) with (u8 (Z.land id 255)).
  rewrite be16_read by exact Hid. reflexivity.
Qed.

Lemma process_pubcomp_frame (b0 id : Z) (stale : list Z) (len : Z) (s : machine) :
  4 <= len -> 0 <= id < 65536 ->
  process_pubcomp (b0 :: 0x02 :: be16 id ++ stale) len s
  = Ok (tt, with_event s (call_pubcomp id)).
Proof.
  intros Hlen Hid. unfold process_pubcomp.
  replace (4 <=? len) with true by (symmetry; apply Z.leb_le; exact Hlen).
  rewrite (handler_checked _ 2) by (try reflexivity; lia).
  unfold be16. cbn [app].
  set (data := b0 :: _).
  change (byte_at data 2) with (u8 (Z.shiftr id 8)).
  change (byte_at data 3) with (u8 (Z.land id 255)).
  rewrite be16_read by exact Hid. reflexivity.
Qed.

Lemma wp_run {A : Type} (m : M A) (Q : A -> machine -> Prop) (s : machine) :
  wp m Q s -> exists a s', m s = Ok (a, s') /\ Q a s'.
Proof. intros H. exact H. Qed.

(** X6: the acknowledgment builders and handlers agree on the layout: the frame
    [mqtt_puback], [mqtt_pubrec] or [mqtt_pubcomp] queues for an identifier
    is four bytes, type, 0x02 and the identifier big-endian, it leaves
    [g_uuid] alone, and the handler of that type, given the frame, calls its
    callback once with the same identifier and queues nothing. *)
Theorem ack_round_trip (id : Z) (stale : list Z) (s r : machine) :
  buf_ok s -> 0 <= id < 65536 ->
  (exists s', mqtt_puback id s = Ok (tt, s') /\ g_uuid s' = g_uuid s /\
     wire (trace s') = wire (trace s) ++ [queued ([0x40; 0x02] ++ be16 id)]) /\
  process_puback (([0x40; 0x02] ++ be16 id) ++ stale) 4 r
    = Ok (tt, with_event r (call_puback id)) /\
  (exists s', mqtt_pubrec id s = Ok (tt, s') /\ g_uuid s' = g_uuid s /\
     wire (trace s') = wire (trace s) ++ [queued ([0x50; 0x02] ++ be16 id)]) /\
  process_pubrec (([0x50; 0x02] ++ be16 id) ++ stale) 4 r
    = Ok (tt, with_event r (call_pubrec id)) /\
  (exists s', mqtt_pubcomp id s = Ok (tt, s') /\ g_uuid s' = g_uuid s /\
     wire (trace s') = wire (trace s) ++ [queued ([0x70; 0x02] ++ be16 id)]) /\
  process_pubcomp (([0x70; 0x02] ++ be16 id) ++ stale) 4 r
    = Ok (tt, with_event r (call_pubcomp id)).
Proof.
  intros Hbuf Hid.
  pose proof (st_any_start s Hbuf) as Hs.
  repeat split.
  - destruct (wp_run _ _ _ (mqtt_puback_spec id _ _ s Hs)) as ([] & s' & Hrun & Hg & Ht & _).
    exists s'. auto.
  - apply process_puback_frame; [lia | exact Hid].
  - destruct (wp_run _ _ _ (mqtt_pubrec_spec id _ _ s Hs)) as ([] & s' & Hrun & Hg & Ht & _).
    exists s'. auto.
  - apply process_pubrec_frame; [lia | exact Hid].
  - destruct (wp_run _ _ _ (mqtt_pubcomp_spec id _ _ s Hs)) as ([] & s' & Hrun & Hg & Ht & _).
    exists s'. auto.
  - apply process_pubcomp_frame; [lia | exact Hid].
Qed.

Lemma ack_round_trip_witness :
  (exists s', mqtt_puback 258 (machine_at 0) = Ok (tt, s') /\
     g_uuid s' = g_uuid (machine_at 0) /\
     wire (trace s') = wire (trace (machine_at 0)) ++ [queued ([0x40; 0x02] ++ be16 258)]) /\
  process_puback (([0x40; 0x02] ++ be16 258) ++ [9]) 4 (machine_at 5)
    = Ok (tt, with_event (machine_at 5) (call_puback 258)) /\
  (exists s', mqtt_pubrec 258 (machine_at 0) = Ok (tt, s') /\
     g_uuid s' = g_uuid (machine_at 0) /\
     wire (trace s') = wire (trace (machine_at 0)) ++ [queued ([0x50; 0x02] ++ be16 258)]) /\
  process_pubrec (([0x50; 0x02] ++ be16 258) ++ [9]) 4 (machine_at 5)
    = Ok (tt, with_event (machine_at 5) (call_pubrec 258)) /\
  (exists s', mqtt_pubcomp 258 (machine_at 0) = Ok (tt, s') /\
     g_uuid s' = g_uuid (machine_at 0) /\
     wire (trace s') = wire (trace (machine_at 0)) ++ [queued ([0x70; 0x02] ++ be16 258)]) /\
  process_pubcomp (([0x70; 0x02] ++ be16 258) ++ [9]) 4 (machine_at 5)
    = Ok (tt, with_event (machine_at 5) (call_pubcomp 258)).
Proof.
  apply (ack_round_trip 258 [9] (machine_at 0) (machine_at 5)).
  - apply buf_ok_machine_at.
  - lia.
Defined.

(** ** Handlers of CONNACK, SUBACK and UNSUBACK *)

(** X7: given at least four bytes and the remaining length it checks for (2 for
    CONNACK, 3 for SUBACK and for UNSUBACK), a handler calls its callback once
    and does nothing else: CONNACK with the fourth byte as status, SUBACK with
    the identifier of bytes 2-3 and byte 4 as status (read even when only four
    bytes were received), UNSUBACK with the identifier of bytes 2-3. *)
Theorem control_handlers (b0 flags status id : Z) (stale : list Z) (len : Z)
    (s : machine) :
  4 <= len -> 0 <= id < 65536 ->
  process_connack (b0 :: 0x02 :: flags :: status :: stale) len s
    = Ok (tt, with_event s (call_connack status)) /\
  process_suback (b0 :: 0x03 :: be16 id ++ status :: stale) len s
    = Ok (tt, with_event s (call_suback status id)) /\
  process_unsuback (b0 :: 0x03 :: be16 id ++ stale) len s
    = Ok (tt, with_event s (call_unsuback id)).
Proof.
  intros Hlen Hid.
  assert (Hguard : (4 <=? len) = true) by (apply Z.leb_le; exact Hlen).
  split; [| split].
  - unfold process_connack. rewrite Hguard.
    rewrite (handler_checked _ 2) by (try reflexivity; lia). reflexivity.
  - unfold process_suback. rewrite Hguard.
    rewrite (handler_checked _ 3) by (try reflexivity; lia).
    unfold be16. cbn [app]. set (data := b0 :: _).
    change (byte_at data 2) with (u8 (Z.shiftr id 8)).
    change (byte_at data 3) with (u8 (Z.land id 255)).
    change (byte_at data 4) with status.
    rewrite be16_read by exact Hid. reflexivity.
  - unfold process_unsuback. rewrite Hguard.
    rewrite (handler_checked _ 3) by (try reflexivity; lia).
    unfold be16. cbn [app]. set (data := b0 :: _).
    change (byte_at data 2) with (u8 (Z.shiftr id 8)).
    change (byte_at data 3) with (u8 (Z.land id 255)).
    rewrite be16_read by exact Hid. reflexivity.
Qed.

Lemma control_handlers_witness :
  process_connack (0x90 :: 0x02 :: 0 :: 1 :: [7]) 4 (machine_at 0)
    = Ok (tt, with_event (machine_at 0) (call_connack 1)) /\
  process_suback (0x90 :: 0x03 :: be16 513 ++ 1 :: [7]) 4 (machine_at 0)
    = Ok (tt, with_event (machine_at 0) (call_suback 1 513)) /\
  process_unsuback (0x90 :: 0x03 :: be16 513 ++ [7]) 4 (machine_at 0)
    = Ok (tt, with_event (machine_at 0) (call_unsuback 513)).
Proof. apply (control_handlers 0x90 0 1 513 [7] 4 (machine_at 0)); lia. Defined.

(** ** PUBLISH, both directions *)

Lemma mqtt_publish_qos0_spec (topic content : list Z) (dup retain : Z) g t s :
  st_any s g t -> (length topic + length content + 4 < 128)%nat ->
  wp (mqtt_publish topic content dup 0 retain)
     (fun _ s' => st_any s' g (t ++ [queued (publish0_bytes dup retain topic content)])) s.
Proof.
  intros Hs Hfit. unfold mqtt_publish.
  assert (Hn : 0 <= strlen topic <= 123) by (unfold strlen; lia).
  assert (Hm : 0 <= strlen content <= 123) by (unfold strlen; lia).
  assert (Hnm : strlen topic + strlen content <= 123) by (unfold strlen; lia).
  change (0 =? 0) with true. cbn [negb].
  rewrite (u32_small (strlen topic + 2 + strlen content)) by lia.
  rewrite strlen_u16 by lia.
  wp_next wp_pdata_init. intros s0 sz H0.
  wp_next wp_poke; [wp_len |]. intros s1 H1.
  wp_next wp_peek. wp_next wp_poke; [wp_len |]. intros s2 H2.
  wp_next wp_peek. wp_next wp_poke; [wp_len |]. intros s3 H3.
  wp_next wp_peek. wp_next wp_poke; [wp_len |]. intros s4 H4.
  rewrite publish_header_eq in H4. cbn [tail] in H4.
  apply wp_bind.
  eapply (wp_advance 1 [publish_header dup 0 retain] []);
    [exact H4 | reflexivity |]. intros s5 H5.
  wp_next wp_encode_length; [lia | wp_len |]. intros s6 H6.
  apply wp_bind. apply wp_assert.
  { rewrite u32_small by lia. apply Z.leb_le. unfold MQTT_MAX_MSG_SIZE. lia. }
  apply wp_bind.
  eapply (wp_advance 1 [strlen topic + 2 + strlen content] []);
    [exact H6 | reflexivity |]. intros s7 H7.
  wp_next wp_put; [wp_len |]. intros s8 H8.
  wp_next wp_put; [wp_len |]. intros s9 H9.
  wp_next wp_strcpy; [wp_len |]. intros s10 H10.
  apply wp_bind.
  eapply (wp_advance _ topic [0]); [exact H10 | reflexivity |]. intros s11 H11.
  apply wp_bind. apply wp_ret.
  wp_next wp_strcpy; [wp_len |]. intros s12 H12.
  wp_next wp_set_size. intros s13 H13.
  eapply (wp_send (publish0_bytes dup retain topic content) [0]);
    [exact H13 | | |].
  { rewrite u8_small by lia. unfold publish0_bytes, lp_string, be16.
    rewrite !length_app. cbn [length]. unfold strlen. lia. }
  { unfold publish0_bytes, lp_string, be16.
    rewrite <- !app_assoc. reflexivity. }
  intros s14 H14. eapply st_at_any. exact H14.
Qed.

(** A frame whose qos bits are 00 or 11 is read without identifier; the
    remaining-length byte [rl] plays no part. *)
Lemma process_publish_no_id (dup qos retain rl : Z) (topic payload stale : list Z)
    (s : machine) :
  qos = 0 \/ qos = 3 -> 0 <= rl < 128 -> c_string topic ->
  (4 + length topic + length payload <= 255)%nat ->
  process_publish
    ([publish_header dup qos retain; rl] ++ lp_string topic ++ payload ++ stale)
    (Z.of_nat (4 + length topic + length payload)) s
  = Ok (tt, with_event s (call_publish (take 41 topic) payload (strlen payload))).
Proof.
  intros Hqos Hrl Htopic Hlen.
  unfold lp_string, be16 in *.
  rewrite <- !app_assoc. cbn [app].
  set (hdr := publish_header dup qos retain).
  set (n := length topic) in *. set (m := length payload) in *.
  assert (Hn : strlen topic = Z.of_nat n) by reflexivity.
  assert (Hm : strlen payload = Z.of_nat m) by reflexivity.
  remember (hdr :: rl :: u8 (Z.shiftr (strlen topic) 8)
            :: u8 (Z.land (strlen topic) 255) :: topic ++ payload ++ stale)
    as data eqn:Hdata.
  assert (Hd0 : byte_at data 0 = hdr) by (subst data; reflexivity).
  assert (Hd1 : byte_at data 1 = rl) by (subst data; reflexivity).
  assert (Hd2 : byte_at data 2 = u8 (Z.shiftr (strlen topic) 8))
    by (subst data; reflexivity).
  assert (Hd3 : byte_at data 3 = u8 (Z.land (strlen topic) 255))
    by (subst data; reflexivity).
  assert (Hsplit : data = [hdr; rl;
                           u8 (Z.shiftr (strlen topic) 8); u8 (Z.land (strlen topic) 255)]
                          ++ topic ++ payload ++ stale)
    by (subst data; reflexivity).
  assert (Hcpy : forall k, (k <= n)%nat -> strncpy data 4 k = take k topic).
  { intros k Hk. rewrite Hsplit.
    apply (strncpy_string k [_; _; _; _]); assumption. }
  assert (Hdrop : drop (4 + n) data = payload ++ stale).
  { rewrite Hsplit, app_assoc.
    apply drop_app_length'. rewrite !length_app. cbn [length]. fold n. lia. }
  clear Hdata Hsplit.
  unfold process_publish.
  destruct (Z.leb_spec 4 (Z.of_nat (4 + n + m))) as [_ | Hshort]; [| lia].
  unfold mbind at 1, M_bind, bind, lift.
  rewrite (decode_length_at_1 _ _ Hd1) by lia.
  cbn [fst snd]. change (Z.to_nat 1 + 1)%nat with 2%nat.
  rewrite Hd0, Hd2, Hd3.
  rewrite be16_read by lia.
  rewrite Hn, Nat2Z.id.
  unfold hdr. rewrite publish_header_qos by lia.
  replace ((1 =? qos) || (2 =? qos)) with false
    by (destruct Hqos; subst qos; reflexivity).
  cbv iota.
  replace (u32 (Z.of_nat (4 + n + m) - 1 - Z.of_nat n - 3))
    with (Z.of_nat m) by (rewrite u32_small; lia).
  rewrite Nat2Z.id, Hdrop.
  replace (take m (payload ++ stale)) with payload
    by (symmetry; apply take_app_length).
  replace (c_str (if 42 <=? Z.of_nat n
                  then strncpy data 4 41 ++ [0]
                  else strncpy data 4 n ++ [0]))
    with (take 41 topic).
  2: { destruct (Z.leb_spec 42 (Z.of_nat n)).
       - rewrite Hcpy by lia. symmetry. apply c_str_nul, c_string_take, Htopic.
       - rewrite Hcpy by lia.
         rewrite (take_ge topic n) by (unfold n; lia).
         rewrite (take_ge topic 41) by (fold n; lia).
         symmetry. apply c_str_nul, Htopic. }
  rewrite Hm. destruct Hqos; subst qos; reflexivity.
Qed.

Lemma process_publish_qos0 (dup retain : Z) (topic payload stale : list Z)
    (s : machine) :
  c_string topic ->
  (length (publish0_bytes dup retain topic payload) <= 129)%nat ->
  process_publish (publish0_bytes dup retain topic payload ++ stale)
    (Z.of_nat (length (publish0_bytes dup retain topic payload))) s
  = Ok (tt, with_event s (call_publish (take 41 topic) payload (strlen payload))).
Proof.
  intros Htopic Hlen.
  assert (Hn : (length (publish0_bytes dup retain topic payload)
                = 4 + length topic + length payload)%nat).
  { unfold publish0_bytes, lp_string, be16. rewrite !length_app. cbn [length]. lia. }
  rewrite Hn in *. unfold publish0_bytes. rewrite <- !app_assoc.
  apply (process_publish_no_id dup 0 retain); try assumption.
  - left. reflexivity.
  - unfold strlen. lia.
  - lia.
Qed.

(** X8: what [mqtt_publish] queues with qos 1 or 2, [process_publish] reads
    back: the frame carries the identifier the builder drew from [g_uuid]
    (which it then increments); given that frame, the handler calls the
    [publish] callback with the same topic (cut to 41 bytes when longer) and
    the same content and length, then queues the acknowledgment, PUBACK for
    qos 1 and PUBREC for qos 2, carrying that identifier. *)
Theorem publish_round_trip (topic content : list Z) (dup qos retain : Z)
    (stale : list Z) (s r : machine) :
  buf_ok s -> buf_ok r -> qos = 1 \/ qos = 2 -> c_string topic ->
  0 <= g_uuid s < 65536 ->
  (length topic + length content + 6 < 128)%nat ->
  exists s' r',
    mqtt_publish topic content dup qos retain s = Ok (tt, s') /\
    g_uuid s' = (g_uuid s + 1) mod 65536 /\
    wire (trace s') =
      wire (trace s)
        ++ [queued (publish_bytes dup qos retain topic (g_uuid s) content)] /\
    process_publish (publish_bytes dup qos retain topic (g_uuid s) content ++ stale)
      (Z.of_nat (length (publish_bytes dup qos retain topic (g_uuid s) content))) r
    = Ok (tt, r') /\
    g_uuid r' = g_uuid r /\
    wire (trace r') =
      wire (trace r)
        ++ [call_publish (take 41 topic) content (strlen content);
            queued (ack_bytes (if qos =? 1 then TYPE_PUBACK else TYPE_PUBREC)
                      (g_uuid s))].
Proof.
  intros Hs Hr Hqos Htopic Hg Hfit.
  destruct (wp_run _ _ _
              (mqtt_publish_spec topic content dup qos retain _ _ s
                 (st_any_start s Hs) ltac:(lia) Hfit))
    as ([] & s' & Hrun & Hg' & Ht & _).
  assert (Hlen : (length (publish_bytes dup qos retain topic (g_uuid s) content)
                  <= 129)%nat).
  { unfold publish_bytes, lp_string, be16. rewrite !length_app. cbn [length]. lia. }
  destruct (wp_run _ _ _
              (process_publish_ack dup qos retain topic (g_uuid s) content stale
                 _ _ r (st_any_start r Hr) Hqos Htopic Hg Hlen))
    as ([] & r' & Hrun2 & Hg2 & Ht2 & _).
  exists s', r'. repeat split; assumption.
Qed.

Lemma publish_round_trip_witness :
  exists s' r',
    mqtt_publish [97; 47; 98] [1; 2] 0 2 1 (machine_at 7) = Ok (tt, s') /\
    g_uuid s' = (g_uuid (machine_at 7) + 1) mod 65536 /\
    wire (trace s') =
      wire (trace (machine_at 7))
        ++ [queued (publish_bytes 0 2 1 [97; 47; 98] (g_uuid (machine_at 7)) [1; 2])] /\
    process_publish
      (publish_bytes 0 2 1 [97; 47; 98] (g_uuid (machine_at 7)) [1; 2] ++ [5])
      (Z.of_nat (length (publish_bytes 0 2 1 [97; 47; 98] (g_uuid (machine_at 7)) [1; 2])))
      (machine_at 0)
    = Ok (tt, r') /\
    g_uuid r' = g_uuid (machine_at 0) /\
    wire (trace r') =
      wire (trace (machine_at 0))
        ++ [call_publish (take 41 [97; 47; 98]) [1; 2] (strlen [1; 2]);
            queued (ack_bytes (if 2 =? 1 then TYPE_PUBACK else TYPE_PUBREC)
                      (g_uuid (machine_at 7)))].
Proof.
  apply (publish_round_trip [97; 47; 98] [1; 2] 0 2 1 [5] (machine_at 7) (machine_at 0)).
  - apply buf_ok_machine_at.
  - apply buf_ok_machine_at.
  - right. reflexivity.
  - repeat constructor; lia.
  - simpl. lia.
  - simpl. lia.
Defined.

(** X9: with qos 0, [mqtt_publish] draws no identifier: [g_uuid] keeps its value
    and the frame is header, remaining length, length-prefixed topic and
    content.  Given that frame, [process_publish] calls the [publish] callback
    with the same topic (cut to 41 bytes when longer) and content, and queues no
    acknowledgment. *)
Theorem publish_qos0_round_trip (topic content : list Z) (dup retain : Z)
    (stale : list Z) (s r : machine) :
  buf_ok s -> c_string topic ->
  (length topic + length content + 4 < 128)%nat ->
  (exists s',
     mqtt_publish topic content dup 0 retain s = Ok (tt, s') /\
     g_uuid s' = g_uuid s /\
     wire (trace s') =
       wire (trace s) ++ [queued (publish0_bytes dup retain topic content)]) /\
  process_publish (publish0_bytes dup retain topic content ++ stale)
    (Z.of_nat (length (publish0_bytes dup retain topic content))) r
  = Ok (tt, with_event r (call_publish (take 41 topic) content (strlen content))).
Proof.
  intros Hs Htopic Hfit. split.
  - destruct (wp_run _ _ _
                (mqtt_publish_qos0_spec topic content dup retain _ _ s
                   (st_any_start s Hs) Hfit))
      as ([] & s' & Hrun & Hg' & Ht & _).
    exists s'. auto.
  - apply process_publish_qos0; [exact Htopic |].
    unfold publish0_bytes, lp_string, be16. rewrite !length_app. cbn [length]. lia.
Qed.

Lemma publish_qos0_round_trip_witness :
  (exists s',
     mqtt_publish [97; 47; 98] [1; 2] 0 0 1 (machine_at 7) = Ok (tt, s') /\
     g_uuid s' = g_uuid (machine_at 7) /\
     wire (trace s') =
       wire (trace (machine_at 7))
         ++ [queued (publish0_bytes 0 1 [97; 47; 98] [1; 2])]) /\
  process_publish (publish0_bytes 0 1 [97; 47; 98] [1; 2] ++ [5])
    (Z.of_nat (length (publish0_bytes 0 1 [97; 47; 98] [1; 2]))) (machine_at 0)
  = Ok (tt, with_event (machine_at 0)
              (call_publish (take 41 [97; 47; 98]) [1; 2] (strlen [1; 2]))).
Proof.
  apply (publish_qos0_round_trip [97; 47; 98] [1; 2] 0 1 [5] (machine_at 7) (machine_at 0)).
  - apply buf_ok_machine_at.
  - repeat constructor; lia.
  - simpl. lia.
Defined.

(** ** Dispatch, by first byte *)

Lemma scan_m26_none (nodes : list func_node) (data : list Z) (len : Z) :
  Forall (fun node => type node <> byte_at data 0) nodes ->
  scan_m26 nodes data len = ret tt.
Proof.
  induction 1 as [| node nodes Hne _ IH]; cbn [scan_m26]; [reflexivity |].
  replace (type node =? byte_at data 0) with false
    by (symmetry; apply Z.eqb_neq; exact Hne).
  exact IH.
Qed.

(** X11: on the M26 transport a frame runs a handler only when its first byte is
    exactly a type constant of the table.  A PUBLISH frame with any of dup,
    qos or retain set (first byte 0x31 to 0x3f) therefore runs no handler
    there, while the WiFi branch hands it to [process_publish]. *)
Theorem m26_dispatch_exact_only (data : list Z) (len : Z) :
  (Forall (fun node => type node <> byte_at data 0) funcs ->
   vMqttRecv MODE_NET_M26 data len = ret tt) /\
  (0x30 < byte_at data 0 <= 0x3f ->
   vMqttRecv MODE_NET_M26 data len = ret tt /\
   vMqttRecv MODE_NET_WIFI data len = process_publish data (u8 len)).
Proof.
  split.
  - intros Hnone. unfold vMqttRecv. apply scan_m26_none. exact Hnone.
  - intros Hb.
    assert (Hcases : byte_at data 0 = 0x31 \/ byte_at data 0 = 0x32 \/
                     byte_at data 0 = 0x33 \/ byte_at data 0 = 0x34 \/
                     byte_at data 0 = 0x35 \/ byte_at data 0 = 0x36 \/
                     byte_at data 0 = 0x37 \/ byte_at data 0 = 0x38 \/
                     byte_at data 0 = 0x39 \/ byte_at data 0 = 0x3a \/
                     byte_at data 0 = 0x3b \/ byte_at data 0 = 0x3c \/
                     byte_at data 0 = 0x3d \/ byte_at data 0 = 0x3e \/
                     byte_at data 0 = 0x3f) by lia.
    unfold vMqttRecv, funcs, scan_m26, scan_wifi.
    repeat (destruct Hcases as [Hcases | Hcases];
            [rewrite Hcases; split; reflexivity |]).
    rewrite Hcases. split; reflexivity.
Qed.

Lemma m26_dispatch_exact_only_witness :
  vMqttRecv MODE_NET_M26 [0x32; 0x07; 0x00; 0x01; 97; 0x00; 0x07; 1; 2] 9 = ret tt /\
  vMqttRecv MODE_NET_WIFI [0x32; 0x07; 0x00; 0x01; 97; 0x00; 0x07; 1; 2] 9
  = process_publish [0x32; 0x07; 0x00; 0x01; 97; 0x00; 0x07; 1; 2] (u8 9).
Proof.
  apply (proj2 (m26_dispatch_exact_only
                  [0x32; 0x07; 0x00; 0x01; 97; 0x00; 0x07; 1; 2] 9)).
  cbn. lia.
Defined.

(** X12: on the WiFi transport the handler is chosen by the high nibble of the
    first byte alone, for CONNACK, PUBLISH, PUBACK, PUBREC, PUBCOMP, SUBACK,
    UNSUBACK and PINGRESP; PUBREL, whose constant 0x62 has a low nibble, runs
    for the byte 0x62 only, and any other byte 0x6x, as well as every byte
    with high nibble 0, 1, 8, a, c, e or f, runs no handler. *)
Theorem wifi_dispatch_by_nibble (data : list Z) (len : Z) :
  let b := byte_at data 0 in
  let run := vMqttRecv MODE_NET_WIFI data len in
  (Z.land b 0xf0 = 0x20 -> run = process_connack data (u8 len)) /\
  (Z.land b 0xf0 = 0x30 -> run = process_publish data (u8 len)) /\
  (Z.land b 0xf0 = 0x40 -> run = process_puback data (u8 len)) /\
  (Z.land b 0xf0 = 0x50 -> run = process_pubrec data (u8 len)) /\
  (b = 0x62 -> run = process_pubrel data (u8 len)) /\
  (Z.land b 0xf0 = 0x60 -> b <> 0x62 -> run = ret tt) /\
  (Z.land b 0xf0 = 0x70 -> run = process_pubcomp data (u8 len)) /\
  (Z.land b 0xf0 = 0x90 -> run = process_suback data (u8 len)) /\
  (Z.land b 0xf0 = 0xb0 -> run = process_unsuback data (u8 len)) /\
  (Z.land b 0xf0 = 0xd0 -> run = process_pingresp data (u8 len)) /\
  (In (Z.land b 0xf0) [0x00; 0x10; 0x80; 0xa0; 0xc0; 0xe0; 0xf0] -> run = ret tt).
Proof.
  cbv zeta. unfold vMqttRecv, funcs. cbn [scan_wifi type process].
  unfold TYPE_CONNACK, TYPE_PUBLISH, TYPE_PUBACK, TYPE_PUBREC, TYPE_PUBREL,
    TYPE_PUBCOMP, TYPE_SUBACK, TYPE_UNSUBACK, TYPE_PINGRESP.
  assert (Hexact : forall c h, Z.land c 0xf0 <> h ->
            Z.land (byte_at data 0) 0xf0 = h -> (c =? byte_at data 0) = false).
  { intros c h Hc Hh. apply Z.eqb_neq. intros ->. contradiction. }
  repeat split; intros Hh;
    try (pose proof (fun c Hc => Hexact c _ Hc Hh) as Hx;
         rewrite Hh;
         repeat first
           [ match goal with
             | |- context [if ?c =? byte_at data 0 then _ else _] =>
                 rewrite (Hx c) by (vm_compute; discriminate)
             end
           | match goal with
             | |- context [if ?c =? ?d then _ else _] =>
                 lazymatch d with
                 | context [byte_at] => fail
                 | _ => let r := eval vm_compute in (c =? d) in
                        change (c =? d) with r
                 end
             end
           | progress cbv iota ];
         reflexivity).
  - rewrite Hh. reflexivity.
  - intros Hne.
    pose proof (fun c Hc => Hexact c _ Hc Hh) as Hx.
    replace (98 =? byte_at data 0) with false
      by (symmetry; apply Z.eqb_neq; congruence).
    rewrite Hh.
    repeat first
           [ match goal with
             | |- context [if ?c =? byte_at data 0 then _ else _] =>
                 rewrite (Hx c) by (vm_compute; discriminate)
             end
           | match goal with
             | |- context [if ?c =? ?d then _ else _] =>
                 lazymatch d with
                 | context [byte_at] => fail
                 | _ => let r := eval vm_compute in (c =? d) in
                        change (c =? d) with r
                 end
             end
           | progress cbv iota ].
    reflexivity.
  - cbn [In] in Hh.
    repeat (destruct Hh as [Hh | Hh];
            [symmetry in Hh;
             pose proof (fun c Hc => Hexact c _ Hc Hh) as Hx;
             rewrite Hh;
             repeat first
           [ match goal with
             | |- context [if ?c =? byte_at data 0 then _ else _] =>
                 rewrite (Hx c) by (vm_compute; discriminate)
             end
           | match goal with
             | |- context [if ?c =? ?d then _ else _] =>
                 lazymatch d with
                 | context [byte_at] => fail
                 | _ => let r := eval vm_compute in (c =? d) in
                        change (c =? d) with r
                 end
             end
           | progress cbv iota ];
             reflexivity |]).
    destruct Hh.
Qed.

Lemma wifi_dispatch_by_nibble_witness :
  vMqttRecv MODE_NET_WIFI [0x6f; 0x02; 0x00; 0x07] 4 = ret tt.
Proof.
  apply (proj1 (proj2 (proj2 (proj2 (proj2 (proj2
           (wifi_dispatch_by_nibble [0x6f; 0x02; 0x00; 0x07] 4))))))).
  - reflexivity.
  - cbn. discriminate.
Defined.

(** ** CONNECT *)

Lemma st_pre_of_at s g t sz pre la : st_at s g t sz pre la -> st_pre s g t sz pre.
Proof. intros H. exists la. exact H. Qed.

Lemma st_pre_facts s g t sz pre :
  st_pre s g t sz pre ->
  g_uuid s = g /\ wire (trace s) = t /\ msg_size (msg s) = sz /\
  pdata s = length pre /\ take (length pre) (msg_data (msg s)) = pre.
Proof.
  intros (la & Hg & Ht & Hsz & suf & Hdata & Hp & Hlen).
  repeat split; try assumption.
  rewrite Hdata. apply take_app_length.
Qed.

Lemma wp_put_pre v g t sz pre (Q : unit -> machine -> Prop) s :
  st_pre s g t sz pre -> (length pre < 128)%nat ->
  (forall s', st_pre s' g t sz (pre ++ [v]) -> Q tt s') ->
  wp (put v) Q s.
Proof.
  intros [la Hs] Hroom HQ. eapply wp_put; [exact Hs | exact Hroom |].
  intros s' Hs'. apply HQ. eapply st_pre_of_at. exact Hs'.
Qed.

Lemma wp_put_all_pre bytes g t sz pre (Q : unit -> machine -> Prop) s :
  st_pre s g t sz pre -> (length pre + length bytes <= 128)%nat ->
  (forall s', st_pre s' g t sz (pre ++ bytes) -> Q tt s') ->
  wp (put_all bytes) Q s.
Proof.
  revert pre s. induction bytes as [| b bytes IH]; intros pre s Hs Hroom HQ.
  - apply wp_ret. apply HQ. rewrite app_nil_r. exact Hs.
  - cbn [put_all]. apply wp_bind.
    eapply wp_put_pre; [exact Hs | simpl in Hroom; lia |].
    intros s1 H1. eapply IH; [exact H1 | rewrite length_app; simpl in *; lia |].
    intros s2 H2. apply HQ. rewrite <- app_assoc in H2. exact H2.
Qed.

Lemma wp_add_string_pre str g t sz pre (Q : unit -> machine -> Prop) s :
  st_pre s g t sz pre -> (length pre + 2 + length str < 128)%nat ->
  (forall s', st_pre s' g t sz (pre ++ lp_string str) -> Q tt s') ->
  wp (add_string (Some str)) Q s.
Proof.
  intros [la Hs] Hroom HQ. unfold add_string. cbn [deref].
  apply wp_bind. apply wp_ret.
  rewrite strlen_u16 by lia.
  wp_next wp_put; [wp_len |]. intros s1 H1.
  wp_next wp_put; [wp_len |]. intros s2 H2.
  wp_next wp_strcpy; [wp_len |]. intros s3 H3.
  eapply (wp_advance _ str [0]); [exact H3 | reflexivity |]. intros s4 H4.
  apply HQ. exists [0]. unfold lp_string, be16.
  rewrite <- ?app_assoc in H4. rewrite <- ?app_assoc. exact H4.
Qed.

(** A string field of CONNECT that is there when its flag is. *)
Lemma wp_string_block (c : bool) (p : option (list Z)) g t sz pre
    (Q : unit -> machine -> Prop) s :
  st_pre s g t sz pre -> (c = true -> p <> None) ->
  (length pre + length (if c then lp_string (opt_str p) else []) < 128)%nat ->
  (forall s', st_pre s' g t sz (pre ++ (if c then lp_string (opt_str p) else []))
              -> Q tt s') ->
  wp (if c then add_string p else ret tt) Q s.
Proof.
  intros Hs Hp Hroom HQ. destruct c.
  - destruct p as [str |]; [| exfalso; apply Hp; reflexivity].
    unfold opt_str in *. cbn [from_option id] in *.
    eapply wp_add_string_pre; [exact Hs | | exact HQ].
    unfold lp_string, be16 in Hroom. rewrite length_app in Hroom. simpl in Hroom. lia.
  - apply wp_ret. apply HQ. rewrite app_nil_r. exact Hs.
Qed.

Lemma wp_will_block (c : bool) (p q : option (list Z)) g t sz pre
    (Q : unit -> machine -> Prop) s :
  st_pre s g t sz pre -> (c = true -> p <> None /\ q <> None) ->
  (length pre
   + length (if c then lp_string (opt_str p) ++ lp_string (opt_str q) else [])
   < 128)%nat ->
  (forall s',
     st_pre s' g t sz
       (pre ++ (if c then lp_string (opt_str p) ++ lp_string (opt_str q) else []))
     -> Q tt s') ->
  wp (if c then add_string p;; add_string q else ret tt) Q s.
Proof.
  intros Hs Hp Hroom HQ. destruct c.
  - destruct (Hp eq_refl) as [Hp1 Hq1].
    destruct p as [str1 |]; [| contradiction].
    destruct q as [str2 |]; [| contradiction].
    unfold opt_str in *. cbn [from_option id] in *.
    unfold lp_string, be16 in Hroom. rewrite !length_app in Hroom. simpl in Hroom.
    apply wp_bind.
    eapply wp_add_string_pre; [exact Hs | lia |]. intros s1 H1.
    eapply wp_add_string_pre; [exact H1 | |].
    { unfold lp_string, be16. rewrite !length_app. simpl. lia. }
    intros s2 H2. apply HQ. rewrite <- app_assoc in H2. exact H2.
  - apply wp_ret. apply HQ. rewrite app_nil_r. exact Hs.
Qed.

(** The same fields in the length calculation. *)
Lemma wp_len_block (c : bool) (p : option (list Z)) (payload_len : Z)
    (Q : Z -> machine -> Prop) s :
  (c = true -> p <> None) -> 0 <= payload_len ->
  payload_len + Z.of_nat (length (if c then lp_string (opt_str p) else []))
    < 4294967296 ->
  Q (payload_len + Z.of_nat (length (if c then lp_string (opt_str p) else []))) s ->
  wp (if c then str ← deref p; ret (u32 (payload_len + (strlen str + 2)))
      else ret payload_len) Q s.
Proof.
  intros Hp Hpos Hsmall HQ. destruct c.
  - destruct p as [str |]; [| exfalso; apply Hp; reflexivity].
    unfold opt_str in *. cbn [from_option id deref] in *.
    unfold lp_string, be16 in *. rewrite length_app in *. cbn [length] in *.
    apply wp_bind. apply wp_ret. apply wp_ret.
    rewrite u32_small by (unfold strlen; lia).
    replace (payload_len + (strlen str + 2))
      with (payload_len + Z.of_nat (2 + length str)) by (unfold strlen; lia).
    exact HQ.
  - apply wp_ret. cbn [length] in HQ. rewrite Z.add_0_r in HQ. exact HQ.
Qed.

Lemma wp_len_will_block (c : bool) (p q : option (list Z)) (payload_len : Z)
    (Q : Z -> machine -> Prop) s :
  (c = true -> p <> None /\ q <> None) -> 0 <= payload_len ->
  payload_len
  + Z.of_nat (length (if c then lp_string (opt_str p) ++ lp_string (opt_str q) else []))
    < 4294967296 ->
  Q (payload_len
     + Z.of_nat (length (if c then lp_string (opt_str p) ++ lp_string (opt_str q)
                         else []))) s ->
  wp (if c
      then str ← deref p;
           let payload_len := u32 (payload_len + (strlen str + 2)) in
           str ← deref q;
           ret (u32 (payload_len + (strlen str + 2)))
      else ret payload_len) Q s.
Proof.
  intros Hp Hpos Hsmall HQ. destruct c.
  - destruct (Hp eq_refl) as [Hp1 Hq1].
    destruct p as [str1 |]; [| contradiction].
    destruct q as [str2 |]; [| contradiction].
    unfold opt_str in *. cbn [from_option id deref] in *.
    unfold lp_string, be16 in *. rewrite !length_app in *. cbn [length] in *.
    apply wp_bind. apply wp_ret. cbv zeta.
    apply wp_bind. apply wp_ret. apply wp_ret.
    rewrite (u32_small (payload_len + (strlen str1 + 2))) by (unfold strlen; lia).
    rewrite u32_small by (unfold strlen; lia).
    replace (payload_len + (strlen str1 + 2) + (strlen str2 + 2))
      with (payload_len + Z.of_nat (2 + length str1 + (2 + length str2)))
      by (unfold strlen; lia).
    exact HQ.
  - apply wp_ret. cbn [length] in HQ. rewrite Z.add_0_r in HQ. exact HQ.
Qed.

Lemma wp_check_connect_param (param : connect_param)
    (Q : unit -> machine -> Prop) s :
  connect_valid param -> Q tt s -> wp (check_connect_param param) Q s.
Proof.
  intros (Hcid & Hwill & Hun & Hpw) HQ. unfold check_connect_param.
  apply wp_bind.
  assert (H1 : wp (if is_null (client_id param)
                   then assert_param (0x01 =? clear_session (cp_flag param))
                   else ret tt) (fun _ s' => s' = s) s).
  { destruct (client_id param); cbn [is_null].
    - apply wp_ret. reflexivity.
    - apply wp_assert; [rewrite Hcid by reflexivity |]; reflexivity. }
  eapply wp_mono; [exact H1 |]. intros u1 s1 ->. clear H1.
  apply wp_bind.
  assert (H2 : wp (if 0x00 =? will_flag (cp_flag param)
                   then assert_param (0 =? will_qos (cp_flag param));;
                        assert_param (0 =? will_retain (cp_flag param))
                   else assert_param (will_qos (cp_flag param) <? 0x03);;
                        assert_param (negb (is_null (will_topic param)));;
                        assert_param (negb (is_null (will_msg param))))
                  (fun _ s' => s' = s) s).
  { destruct Hwill as [(Hw & Hq & Hr) | (Hw & Hq & Ht & Hm)].
    - rewrite Hw, Hq, Hr. cbn [Z.eqb].
      apply wp_bind. apply wp_assert; [reflexivity |].
      apply wp_assert; reflexivity.
    - replace (0 =? will_flag (cp_flag param)) with false
        by (symmetry; apply Z.eqb_neq; congruence).
      apply wp_bind. apply wp_assert; [apply Z.ltb_lt; exact Hq |].
      apply wp_bind.
      apply wp_assert; [destruct (will_topic param); [reflexivity | contradiction] |].
      apply wp_assert; [destruct (will_msg param); [reflexivity | contradiction] |].
      reflexivity. }
  eapply wp_mono; [exact H2 |]. intros u2 s2 ->. clear H2.
  apply wp_bind.
  assert (H3 : wp (if 0x01 =? username_flag (cp_flag param)
                   then assert_param (negb (is_null (username param)))
                   else ret tt) (fun _ s' => s' = s) s).
  { destruct (Z.eqb_spec 1 (username_flag (cp_flag param))) as [Hu | Hu].
    - apply wp_assert; [| reflexivity].
      destruct (username param); [reflexivity |].
      exfalso. apply Hun; [symmetry; exact Hu | reflexivity].
    - apply wp_ret. reflexivity. }
  eapply wp_mono; [exact H3 |]. intros u3 s3 ->. clear H3.
  destruct (Z.eqb_spec 1 (password_flag (cp_flag param))) as [Hp | Hp].
  - apply wp_assert; [| exact HQ].
    destruct (password param); [reflexivity |].
    exfalso. apply Hpw; [symmetry; exact Hp | reflexivity].
  - apply wp_ret. exact HQ.
Qed.

(** What [connect_valid] gives each optional field. *)
Lemma connect_valid_fields (param : connect_param) :
  connect_valid param ->
  ((0x01 =? will_flag (cp_flag param)) = true ->
   will_topic param <> None /\ will_msg param <> None) /\
  ((0x01 =? username_flag (cp_flag param)) = true -> username param <> None) /\
  ((0x01 =? password_flag (cp_flag param)) = true -> password param <> None).
Proof.
  intros (_ & Hwill & Hun & Hpw). repeat split.
  - apply Z.eqb_eq in H.
    destruct Hwill as [(Hw & _) | (_ & _ & Ht & _)]; [congruence | exact Ht].
  - apply Z.eqb_eq in H.
    destruct Hwill as [(Hw & _) | (_ & _ & _ & Hm)]; [congruence | exact Hm].
  - intros H. apply Z.eqb_eq in H. apply Hun. symmetry. exact H.
  - intros H. apply Z.eqb_eq in H. apply Hpw. symmetry. exact H.
Qed.

Lemma wp_calculate_connect_payload_len (param : connect_param)
    (Q : Z -> machine -> Prop) s :
  connect_valid param ->
  (length (opt_str (client_id param)) + length (connect_tail param) < 1000)%nat ->
  Q (10
     + Z.of_nat (length (if negb (is_null (client_id param))
                         then lp_string (opt_str (client_id param)) else []))
     + Z.of_nat (length (connect_tail param))) s ->
  wp (calculate_connect_payload_len param) Q s.
Proof.
  intros Hvalid Hsmall HQ.
  destruct (connect_valid_fields param Hvalid) as (Hw & Hu & Hp).
  unfold calculate_connect_payload_len. cbv zeta.
  unfold connect_tail in *. rewrite !length_app in *.
  set (W := if 1 =? will_flag (cp_flag param)
            then lp_string (opt_str (will_topic param))
                 ++ lp_string (opt_str (will_msg param)) else []) in *.
  set (U := if 1 =? username_flag (cp_flag param)
            then lp_string (opt_str (username param)) else []) in *.
  set (P := if 1 =? password_flag (cp_flag param)
            then lp_string (opt_str (password param)) else []) in *.
  set (C := if negb (is_null (client_id param))
            then lp_string (opt_str (client_id param)) else []) in *.
  assert (HC : (length C <= length (opt_str (client_id param)) + 2)%nat).
  { unfold C. destruct (negb (is_null (client_id param))); [| simpl; lia].
    unfold lp_string, be16. rewrite length_app. simpl. lia. }
  apply wp_bind.
  apply (wp_len_block (negb (is_null (client_id param))) (client_id param) 10).
  { destruct (client_id param); cbn [is_null negb]; congruence. }
  { lia. }
  { fold C. lia. }
  fold C.
  apply wp_bind.
  apply (wp_len_will_block (1 =? will_flag (cp_flag param))
           (will_topic param) (will_msg param)); [exact Hw | lia | fold W; lia |].
  fold W.
  apply wp_bind.
  apply (wp_len_block (1 =? username_flag (cp_flag param)) (username param));
    [exact Hu | lia | fold U; lia |].
  fold U.
  apply wp_bind.
  apply (wp_len_block (1 =? password_flag (cp_flag param)) (password param));
    [exact Hp | lia | fold P; lia |].
  fold P.
  apply wp_ret.
  replace (10 + Z.of_nat (length C) + Z.of_nat (length W) + Z.of_nat (length U)
           + Z.of_nat (length P))
    with (10 + Z.of_nat (length C)
          + Z.of_nat (length W + (length U + length P))) by lia.
  exact HQ.
Qed.

(** The part of [mqtt_connect] from the type byte to the keep-alive, for a
    payload length that fits one byte. *)
Lemma wp_connect_head (param : connect_param) (L : Z) g t sz
    (k : Z -> M unit) (Q : unit -> machine -> Prop) s :
  st_at s g t sz [] [] -> 0 <= L -> L + 2 <= 128 ->
  (forall s', st_pre s' g t sz ([TYPE_CONNECT; L] ++ connect_head param) ->
              wp (k 1) Q s') ->
  wp (put TYPE_CONNECT;;
      encode_len ← encode_length_pdata L;
      assert_param (u32 (L + encode_len + 1) <=? MQTT_MAX_MSG_SIZE);;
      advance encode_len;;
      put_all protocol_name;;
      put PROTOCOL_LEVEL;;
      put (flag (cp_flag param));;
      put (u8 (Z.shiftr (alive_time param) 8));;
      put (u8 (Z.land (alive_time param) 0xff));;
      k encode_len) Q s.
Proof.
  intros H0 HL0 HL Hk.
  wp_next wp_put; [wp_len |]. intros s1 H1.
  wp_next wp_encode_length; [lia | wp_len |]. intros s2 H2.
  apply wp_bind. apply wp_assert.
  { rewrite u32_small by lia. apply Z.leb_le. unfold MQTT_MAX_MSG_SIZE. lia. }
  apply wp_bind.
  eapply (wp_advance 1 [L] []); [exact H2 | reflexivity |]. intros s3 H3.
  apply st_pre_of_at in H3.
  apply wp_bind. eapply wp_put_all_pre; [exact H3 | wp_len |]. intros s4 H4.
  apply wp_bind. eapply wp_put_pre; [exact H4 | wp_len |]. intros s5 H5.
  apply wp_bind. eapply wp_put_pre; [exact H5 | wp_len |]. intros s6 H6.
  apply wp_bind. eapply wp_put_pre; [exact H6 | wp_len |]. intros s7 H7.
  apply wp_bind. eapply wp_put_pre; [exact H7 | wp_len |]. intros s8 H8.
  apply (Hk s8). unfold connect_head.
  rewrite <- ?app_assoc in H8. cbn [app] in H8 |- *. exact H8.
Qed.

(** The end of [mqtt_connect]: the three optional blocks, the size and the
    send; [n] is the recorded size and [pre] what was written before the
    blocks. *)
Lemma wp_connect_tail (param : connect_param) (n : Z) g t sz (pre : list Z)
    (Q : unit -> machine -> Prop) s :
  connect_valid param -> st_pre s g t sz pre ->
  (length pre + length (connect_tail param) < 128)%nat ->
  0 <= n <= Z.of_nat (length pre + length (connect_tail param)) ->
  (forall s',
     st_pre s' g
       (t ++ [queued (take (Z.to_nat n) (pre ++ connect_tail param))]) n
       (pre ++ connect_tail param) -> Q tt s') ->
  wp ((if 0x01 =? will_flag (cp_flag param)
       then add_string (will_topic param);; add_string (will_msg param)
       else ret tt);;
      (if 0x01 =? username_flag (cp_flag param)
       then add_string (username param) else ret tt);;
      (if 0x01 =? password_flag (cp_flag param)
       then add_string (password param) else ret tt);;
      set_size n;;
      mqtt_send_data) Q s.
Proof.
  intros Hvalid Hs Hroom Hn HQ.
  destruct (connect_valid_fields param Hvalid) as (Hw & Hu & Hp).
  unfold connect_tail in *. rewrite !length_app in Hroom, Hn.
  set (W := if 1 =? will_flag (cp_flag param)
            then lp_string (opt_str (will_topic param))
                 ++ lp_string (opt_str (will_msg param)) else []) in *.
  set (U := if 1 =? username_flag (cp_flag param)
            then lp_string (opt_str (username param)) else []) in *.
  set (P := if 1 =? password_flag (cp_flag param)
            then lp_string (opt_str (password param)) else []) in *.
  apply wp_bind.
  eapply (wp_will_block (1 =? will_flag (cp_flag param)));
    [exact Hs | exact Hw | fold W; lia |]. fold W. intros s1 H1.
  apply wp_bind.
  eapply (wp_string_block (1 =? username_flag (cp_flag param)));
    [exact H1 | exact Hu | fold U; rewrite length_app; lia |]. fold U. intros s2 H2.
  apply wp_bind.
  eapply (wp_string_block (1 =? password_flag (cp_flag param)));
    [exact H2 | exact Hp | fold P; rewrite !length_app; lia |]. fold P. intros s3 H3.
  rewrite <- !app_assoc in H3.
  destruct H3 as [la H3].
  wp_next wp_set_size. intros s4 H4.
  rewrite u8_small in H4 by lia.
  eapply (wp_send (take (Z.to_nat n) (pre ++ W ++ U ++ P))
            (drop (Z.to_nat n) (pre ++ W ++ U ++ P) ++ la)); [exact H4 | | |].
  - rewrite length_take, !length_app. lia.
  - transitivity ((take (Z.to_nat n) (pre ++ W ++ U ++ P)
                   ++ drop (Z.to_nat n) (pre ++ W ++ U ++ P)) ++ la).
    + rewrite take_drop. reflexivity.
    + rewrite <- app_assoc. reflexivity.
  - intros s5 H5. apply HQ. exists la. exact H5.
Qed.

Lemma connect_head_length (param : connect_param) :
  length (connect_head param) = 10%nat.
Proof. reflexivity. Qed.

(** X13: with a client identifier, whatever the will, user name and password
    flags, the payload length [calculate_connect_payload_len] returns is the
    number of bytes [mqtt_connect] writes after the remaining-length byte, and
    the frame it queues is all of them: type 0x10, that length, protocol name,
    level, flags, keep-alive, the client identifier and the flagged strings,
    each with its 2-byte length. *)
Theorem connect_with_client_id (param : connect_param) (cid : list Z) (s : machine) :
  buf_ok s -> connect_valid param -> client_id param = Some cid ->
  (12 + length (lp_string cid) + length (connect_tail param) < 128)%nat ->
  let L := 10 + Z.of_nat (length (lp_string cid) + length (connect_tail param)) in
  let written :=
    [0x10; L] ++ connect_head param ++ lp_string cid ++ connect_tail param in
  exists s',
    calculate_connect_payload_len param s = Ok (L, s) /\
    mqtt_connect param s = Ok (tt, s') /\
    g_uuid s' = g_uuid s /\
    wire (trace s') = wire (trace s) ++ [queued written] /\
    take (pdata s') (msg_data (msg s')) = written /\
    Z.of_nat (pdata s') = L + 2 /\
    msg_size (msg s') = L + 2.
Proof.
  intros Hbuf Hvalid Hcid Hfit L written.
  pose proof (st_any_start s Hbuf) as Hs.
  assert (Hlp : length (lp_string cid) = (2 + length cid)%nat) by reflexivity.
  assert (Hcalc : forall r, wp (calculate_connect_payload_len param)
                              (fun a r' => a = L /\ r' = r) r).
  { intros r. apply wp_calculate_connect_payload_len; [exact Hvalid | |].
    - rewrite Hcid. unfold opt_str. cbn [from_option id]. lia.
    - rewrite Hcid. cbn [is_null negb]. unfold opt_str. cbn [from_option id].
      split; [unfold L; lia | reflexivity]. }
  assert (Hrun : wp (mqtt_connect param)
                   (fun _ s' => st_pre s' (g_uuid s) (wire (trace s) ++ [queued written])
                                  (L + 2) written) s).
  { unfold mqtt_connect.
    apply wp_bind. apply wp_check_connect_param; [exact Hvalid |].
    wp_next wp_pdata_init. intros s0 sz H0.
    apply wp_bind. eapply wp_mono; [apply Hcalc |]. intros a r [-> ->].
    rewrite Hcid. cbn [is_null negb].
    eapply wp_connect_head; [exact H0 | unfold L; lia | unfold L; lia |].
    intros s1 H1. cbv beta.
    apply wp_bind. eapply wp_add_string_pre; [exact H1 | wp_len |]. intros s2 H2.
    eapply (wp_connect_tail param (L + 1 + 1)); [exact Hvalid | exact H2 | | |].
    - rewrite !length_app, connect_head_length, Hlp. simpl. lia.
    - rewrite !length_app, connect_head_length, Hlp. unfold L. simpl. lia.
    - intros s3 H3.
      replace (L + 1 + 1) with (L + 2) in H3 by lia.
      rewrite <- !app_assoc in H3. cbn [app] in H3.
      rewrite take_ge in H3
        by (cbn [length]; rewrite !length_app, connect_head_length, Hlp;
            unfold L; lia).
      exact H3. }
  destruct (Hcalc s) as (a & r & Hc & -> & ->).
  destruct Hrun as ([] & s' & Hrun & Hpre).
  apply st_pre_facts in Hpre. destruct Hpre as (Hg & Ht & Hsz & Hp & Htake).
  exists s'. repeat split; try assumption.
  - rewrite Hp. exact Htake.
  - rewrite Hp. unfold written. cbn [app length].
    rewrite !length_app, connect_head_length, Hlp. unfold L. lia.
Qed.

Lemma connect_with_client_id_witness :
  let param :=
    {| cp_flag := {| flag := 0xc2; clear_session := 1; will_flag := 0; will_qos := 0;
                     will_retain := 0; password_flag := 1; username_flag := 1 |};
       alive_time := 60; client_id := Some [99; 49]; will_topic := None;
       will_msg := None; username := Some [117]; password := Some [112; 119] |} in
  let L := 10 + Z.of_nat (length (lp_string [99; 49]) + length (connect_tail param)) in
  let written :=
    [0x10; L] ++ connect_head param ++ lp_string [99; 49] ++ connect_tail param in
  exists s',
    calculate_connect_payload_len param (machine_at 0) = Ok (L, machine_at 0) /\
    mqtt_connect param (machine_at 0) = Ok (tt, s') /\
    g_uuid s' = g_uuid (machine_at 0) /\
    wire (trace s') = wire (trace (machine_at 0)) ++ [queued written] /\
    take (pdata s') (msg_data (msg s')) = written /\
    Z.of_nat (pdata s') = L + 2 /\
    msg_size (msg s') = L + 2.
Proof.
  apply (connect_with_client_id
           {| cp_flag := {| flag := 0xc2; clear_session := 1; will_flag := 0;
                            will_qos := 0; will_retain := 0; password_flag := 1;
                            username_flag := 1 |};
              alive_time := 60; client_id := Some [99; 49]; will_topic := None;
              will_msg := None; username := Some [117]; password := Some [112; 119] |}
           [99; 49] (machine_at 0)).
  - apply buf_ok_machine_at.
  - unfold connect_valid. cbn. repeat split; try discriminate.
    left. repeat split.
  - reflexivity.
  - cbn. lia.
Defined.

(** X14: without a client identifier, whatever the other flags, [mqtt_connect]
    writes the empty identifier 0x00 0x00 that
    [calculate_connect_payload_len] does not count: the bytes written after
    the remaining-length byte are two more than the length it returns, and the
    queued frame, cut to the recorded size, lacks the last two bytes
    written. *)
Theorem connect_without_client_id (param : connect_param) (s : machine) :
  buf_ok s -> connect_valid param -> client_id param = None ->
  (14 + length (connect_tail param) < 128)%nat ->
  let L := 10 + Z.of_nat (length (connect_tail param)) in
  let written :=
    [0x10; L] ++ connect_head param ++ [0x00; 0x00] ++ connect_tail param in
  exists s',
    calculate_connect_payload_len param s = Ok (L, s) /\
    mqtt_connect param s = Ok (tt, s') /\
    take (pdata s') (msg_data (msg s')) = written /\
    Z.of_nat (pdata s') = L + 2 + 2 /\
    msg_size (msg s') = L + 2 /\
    wire (trace s') =
      wire (trace s) ++ [queued (take (length written - 2) written)].
Proof.
  intros Hbuf Hvalid Hcid Hfit L written.
  pose proof (st_any_start s Hbuf) as Hs.
  assert (Hcalc : forall r, wp (calculate_connect_payload_len param)
                              (fun a r' => a = L /\ r' = r) r).
  { intros r. apply wp_calculate_connect_payload_len; [exact Hvalid | |].
    - rewrite Hcid. unfold opt_str. cbn [from_option length]. lia.
    - rewrite Hcid. cbn [is_null negb length].
      split; [unfold L; lia | reflexivity]. }
  assert (Hlen : length written = (14 + length (connect_tail param))%nat).
  { unfold written. cbn [app length]. rewrite !length_app, connect_head_length.
    simpl. lia. }
  assert (Hrun : wp (mqtt_connect param)
                   (fun _ s' =>
                      st_pre s' (g_uuid s)
                        (wire (trace s) ++ [queued (take (length written - 2) written)])
                        (L + 2) written) s).
  { unfold mqtt_connect.
    apply wp_bind. apply wp_check_connect_param; [exact Hvalid |].
    wp_next wp_pdata_init. intros s0 sz H0.
    apply wp_bind. eapply wp_mono; [apply Hcalc |]. intros a r [-> ->].
    rewrite Hcid. cbn [is_null negb].
    eapply wp_connect_head; [exact H0 | unfold L; lia | unfold L; lia |].
    intros s1 H1. cbv beta.
    apply wp_bind. apply wp_bind.
    eapply wp_put_pre; [exact H1 | wp_len |]. intros s2 H2.
    eapply wp_put_pre; [exact H2 | wp_len |]. intros s3 H3.
    eapply (wp_connect_tail param (L + 1 + 1)); [exact Hvalid | exact H3 | | |].
    - rewrite !length_app, connect_head_length. simpl. lia.
    - rewrite !length_app, connect_head_length. unfold L. simpl. lia.
    - intros s4 H4.
      replace (L + 1 + 1) with (L + 2) in H4 by lia.
      rewrite <- !app_assoc in H4. cbn [app] in H4.
      replace (Z.to_nat (L + 2)) with (length written - 2)%nat in H4
        by (rewrite Hlen; unfold L; lia).
      exact H4. }
  destruct (Hcalc s) as (a & r & Hc & -> & ->).
  destruct Hrun as ([] & s' & Hrun & Hpre).
  apply st_pre_facts in Hpre. destruct Hpre as (Hg & Ht & Hsz & Hp & Htake).
  exists s'. repeat split; try assumption.
  - rewrite Hp. exact Htake.
  - rewrite Hp, Hlen. unfold L. lia.
Qed.

Lemma connect_without_client_id_witness :
  let param :=
    {| cp_flag := {| flag := 0x82; clear_session := 1; will_flag := 0; will_qos := 0;
                     will_retain := 0; password_flag := 0; username_flag := 1 |};
       alive_time := 60; client_id := None; will_topic := None;
       will_msg := None; username := Some [117; 115]; password := None |} in
  let L := 10 + Z.of_nat (length (connect_tail param)) in
  let written :=
    [0x10; L] ++ connect_head param ++ [0x00; 0x00] ++ connect_tail param in
  exists s',
    calculate_connect_payload_len param (machine_at 0) = Ok (L, machine_at 0) /\
    mqtt_connect param (machine_at 0) = Ok (tt, s') /\
    take (pdata s') (msg_data (msg s')) = written /\
    Z.of_nat (pdata s') = L + 2 + 2 /\
    msg_size (msg s') = L + 2 /\
    wire (trace s') =
      wire (trace (machine_at 0)) ++ [queued (take (length written - 2) written)].
Proof.
  apply (connect_without_client_id
           {| cp_flag := {| flag := 0x82; clear_session := 1; will_flag := 0;
                            will_qos := 0; will_retain := 0; password_flag := 0;
                            username_flag := 1 |};
              alive_time := 60; client_id := None; will_topic := None;
              will_msg := None; username := Some [117; 115]; password := None |}
           (machine_at 0)).
  - apply buf_ok_machine_at.
  - unfold connect_valid. cbn. repeat split; try discriminate.
    left. repeat split.
  - reflexivity.
  - cbn. lia.
Defined.

(** ** Driver registry *)

(** X15: after [mqtt_attach] none of the slots connack, puback, pubrec, pubrel,
    pubcomp, suback, unsuback and pingresp is [NULL]: each holds the
    application's function when one was given and the default otherwise.  The
    publish slot is the exception: it is copied as given, so an application
    that leaves it [NULL] leaves a null function pointer in the registry.
    What was attached before plays no part, and [mqtt_detach] puts the nine
    defaults back. *)
Theorem attach_fills_all_but_publish (driver g_driver : mqtt_driver) :
  let g := mqtt_attach driver g_driver in
  connack g = Some (default default_cb (connack driver)) /\
  puback g = Some (default default_cb (puback driver)) /\
  pubrec g = Some (default default_cb (pubrec driver)) /\
  pubrel g = Some (default default_cb (pubrel driver)) /\
  pubcomp g = Some (default default_cb (pubcomp driver)) /\
  suback g = Some (default default_cb (suback driver)) /\
  unsuback g = Some (default default_cb (unsuback driver)) /\
  pingresp g = Some (default default_cb (pingresp driver)) /\
  publish g = publish driver /\
  mqtt_detach g = init_mqtt_driver /\
  publish (mqtt_detach g) = Some default_cb.
Proof.
  destruct driver as [c p a r l m u n i].
  cbv zeta. unfold mqtt_attach, refresh_driver.
  cbn [connack publish puback pubrec pubrel pubcomp suback unsuback pingresp].
  repeat split;
    match goal with
    | |- refresh_slot ?x = _ => destruct x; reflexivity
    end.
Qed.

(** ** PUBLISH frames that end early *)

Lemma u32_negative (x : Z) : - 4294967296 <= x < 0 -> u32 x = x + 4294967296.
Proof.
  intros H. unfold u32. symmetry.
  apply (Z.mod_unique x 4294967296 (-1)); lia.
Qed.

(** X16: [process_publish] does not compare the topic length it reads with the
    length of the frame.  For a qos=0 frame of at least 4 bytes whose
    declared topic length reaches past its end, the length handed to the
    [publish] callback, an unsigned 32-bit value, wraps around: it is
    2^32 + len - 4 - topic_len, above 4,294,901,000. *)
Theorem publish_length_wraps (data : list Z) (len : Z) (s : machine) :
  let topic_len := u16 (u16 (Z.shiftl (byte_at data 2) 8) + byte_at data 3) in
  4 <= len < 256 -> 0 <= byte_at data 1 < 128 ->
  Z.land (Z.shiftr (byte_at data 0) 1) 0x03 = 0 ->
  len - 4 < topic_len ->
  exists topic content n,
    process_publish data len s
    = Ok (tt, with_event s (call_publish topic content n)) /\
    n = 4294967296 + len - 4 - topic_len /\
    4294901000 < n.
Proof.
  intros topic_len Hlen Hrl Hqos Hshort.
  assert (Htl : 0 <= topic_len < 65536) by (apply Z.mod_pos_bound; lia).
  unfold process_publish.
  replace (4 <=? len) with true by (symmetry; apply Z.leb_le; lia).
  unfold mbind at 1, M_bind, bind, lift.
  rewrite (decode_length_at_1 data _ eq_refl Hrl).
  cbn [fst snd]. change (Z.to_nat 1 + 1)%nat with 2%nat.
  rewrite Hqos. change ((1 =? 0) || (2 =? 0)) with false. cbv iota.
  fold topic_len.
  rewrite (u32_negative (len - 1 - topic_len - 3)) by lia.
  eexists _, _, _. split; [reflexivity |]. split; lia.
Qed.

Lemma publish_length_wraps_witness :
  exists topic content n,
    process_publish [0x30; 0x02; 0x00; 0x0a; 97; 98] 6 (machine_at 0)
    = Ok (tt, with_event (machine_at 0) (call_publish topic content n)) /\
    n = 4294967296 + 6 - 4
        - u16 (u16 (Z.shiftl (byte_at [0x30; 0x02; 0x00; 0x0a; 97; 98] 2) 8)
               + byte_at [0x30; 0x02; 0x00; 0x0a; 97; 98] 3) /\
    4294901000 < n.
Proof.
  apply (publish_length_wraps [0x30; 0x02; 0x00; 0x0a; 97; 98] 6 (machine_at 0)).
  - lia.
  - cbn. lia.
  - reflexivity.
  - vm_compute. reflexivity.
Defined.

(** ** The one-byte round trip, at a value *)

Lemma remaining_length_roundtrip_one_byte_witness :
  encode_length 127 (0x30 :: 0 :: [7; 7]) 1 = Ok (1, 0x30 :: 127 :: [7; 7]) /\
  decode_length (0x30 :: 127 :: [7; 7]) 0 = Ok (127, 1).
Proof. apply (remaining_length_roundtrip_one_byte 127 0x30 0 [7; 7]). lia. Defined.

(** ** PUBLISH with both qos bits set *)

(** X17: a PUBLISH frame whose qos bits are both set is taken as one without
    identifier: [process_publish] reads no identifier, hands the callback the
    two identifier bytes as the start of the content, two bytes longer, and
    queues no acknowledgment. *)
Theorem publish_qos3_as_qos0 (dup retain : Z) (topic : list Z) (id : Z)
    (payload stale : list Z) (s : machine) :
  c_string topic ->
  (length (publish_bytes dup 3 retain topic id payload) <= 65)%nat ->
  process_publish (publish_bytes dup 3 retain topic id payload ++ stale)
    (Z.of_nat (length (publish_bytes dup 3 retain topic id payload))) s
  = Ok (tt, with_event s (call_publish (take 41 topic) (be16 id ++ payload)
                            (strlen payload + 2))).
Proof.
  intros Htopic Hlen.
  assert (Hn : (length (publish_bytes dup 3 retain topic id payload)
                = 4 + length topic + length (be16 id ++ payload))%nat).
  { unfold publish_bytes, lp_string, be16. rewrite !length_app. cbn [length]. lia. }
  rewrite Hn in *. unfold publish_bytes. rewrite <- !app_assoc.
  replace (strlen payload + 2) with (strlen (be16 id ++ payload))
    by (unfold strlen, be16; rewrite length_app; cbn [length]; lia).
  rewrite (app_assoc (be16 id) payload stale).
  apply (process_publish_no_id dup 3 retain _ topic (be16 id ++ payload) stale s);
    try assumption.
  - right. reflexivity.
  - unfold strlen, be16 in *. rewrite length_app in Hlen. cbn [length] in Hlen. lia.
  - lia.
Qed.

Lemma publish_qos3_as_qos0_witness :
  process_publish (publish_bytes 0 3 0 [97; 47; 98] 7 [1; 2] ++ [5])
    (Z.of_nat (length (publish_bytes 0 3 0 [97; 47; 98] 7 [1; 2]))) (machine_at 0)
  = Ok (tt, with_event (machine_at 0)
              (call_publish (take 41 [97; 47; 98]) (be16 7 ++ [1; 2])
                 (strlen [1; 2] + 2))).
Proof.
  apply (publish_qos3_as_qos0 0 0 [97; 47; 98] 7 [1; 2] [5] (machine_at 0)).
  - repeat constructor; lia.
  - simpl. lia.
Defined.
